(** * netlib_read_ipv6route: reading one entry of the IPv6 routing table

    A shallow embedding of apps/netutils/netlib/netlib_ipv6route.c.

    The C function reads up to three text lines of the procfs routing
    table with [fgets] into a local 58-byte buffer, checks the first
    character of each line, cuts the address text that starts at column
    15 with [set_nul_terminator], and hands it to [inet_pton], which
    writes straight into the caller's route record.

    Characters are integers ([Z]); the line buffer is a list updated by
    index; the stream, the route record, the line buffer and the list of
    library calls made so far are threaded through a small state monad
    whose computations either go on, leave the function with a return
    value, or run into behaviour that C leaves undefined. *)

From Stdlib Require Import ZArith Lia Bool Ascii String.
From stdpp Require Import base option list.

Local Open Scope Z_scope.

(** ** Characters and text *)

(** The integer value of a character constant such as ['0']. *)
Definition ch (a : ascii) : Z := Z.of_N (N_of_ascii a).

(** The characters of a string literal, as the bytes of a text file. *)
Definition text (s : string) : list Z := map ch (list_ascii_of_string s).

Definition NUL : Z := 0.
Definition newline : Z := 10.

(** ** Pre-processor definitions *)

Definition PROCFS_LINELEN : nat := 58.
Definition ADDR_OFFSET : nat := 15.

(** Modelled from the spec: <errno.h> is not among the sources.  The spec
    asks only for an error return that is a negated errno value, apart
    from the zero of end-of-stream and from the size returned on success;
    the customary value of EINVAL is used. *)
Definition EINVAL : Z := 22.

(** ** Data model *)

(** A binary IPv6 address: sixteen bytes in network order. *)
Definition in6_addr : Type := list Z.

(** Modelled from the spec: struct netlib_ipv6_route_s is declared in
    netutils/netlib.h, which is not among the sources.  The spec's Route
    Record has three 128-bit addresses: prefix, netmask and router. *)
Record netlib_ipv6_route_s : Type := mk_route {
  prefix : in6_addr;
  netmask : in6_addr;
  router : in6_addr
}.

(** Modelled from the spec: sizeof(struct netlib_ipv6_route_s), three
    addresses of sixteen bytes. *)
Definition sizeof_route : Z := 48.

(** The member of the record that a conversion writes. *)
Inductive field : Type := Prefix | Netmask | Router.

Definition get_field (fld : field) (r : netlib_ipv6_route_s) : in6_addr :=
  match fld with
  | Prefix => prefix r
  | Netmask => netmask r
  | Router => router r
  end.

Definition set_field (fld : field) (a : in6_addr) (r : netlib_ipv6_route_s)
  : netlib_ipv6_route_s :=
  match fld with
  | Prefix => mk_route a (netmask r) (router r)
  | Netmask => mk_route (prefix r) a (router r)
  | Router => mk_route (prefix r) (netmask r) a
  end.

(** ** set_nul_terminator *)

(** The loop condition of [set_nul_terminator]: a hexadecimal digit or a
    colon. *)
Definition is_addr_char (c : Z) : bool :=
  ((ch "0" <=? c) && (c <=? ch "9")) ||
  ((ch "a" <=? c) && (c <=? ch "f")) ||
  ((ch "A" <=? c) && (c <=? ch "F")) ||
  (c =? ch ":").

(** The [while] loop, on the characters from [str] to the end of the
    object [str] points into: the number of times [str++] runs.  [None]
    when every character up to the end of the object satisfies the loop
    condition, where the C loop goes on to read outside the object. *)
Fixpoint scan_address (s : list Z) : option nat :=
  match s with
  | [] => None
  | c :: s' => if is_addr_char c then S <$> scan_address s' else Some 0%nat
  end.

(** [set_nul_terminator(&buf[str])]: the buffer after [*str = '\0'] at
    the place where the loop stopped. *)
Definition set_nul_terminator (buf : list Z) (str : nat) : option (list Z) :=
  n ← scan_address (drop str buf);
  Some (<[(str + n)%nat := NUL]> buf).

(** The string a [char *] argument denotes: the characters before the
    first NUL; [None] when the object holds no NUL from there on. *)
Fixpoint c_string (s : list Z) : option (list Z) :=
  match s with
  | [] => None
  | c :: s' => if c =? NUL then Some [] else (c ::.) <$> c_string s'
  end.

(** ** The stream *)

(** What a read finds once the unread characters are used up. *)
Inductive stream_end : Type := AtEof | IoError.

Record FILE : Type := mk_file {
  unread : list Z;
  ending : stream_end
}.

(** Why a line read stopped taking characters. *)
Inductive stop : Type := Newline | Full | Drained.

(** The characters one [fgets] with room for [n] characters takes from
    the unread text: up to and including the first newline, at most [n]. *)
Fixpoint read_line (n : nat) (s : list Z) : list Z * stop :=
  match n with
  | O => ([], Full)
  | S n' =>
      match s with
      | [] => ([], Drained)
      | c :: s' =>
          if c =? newline then ([c], Newline)
          else let '(l, why) := read_line n' s' in (c :: l, why)
      end
  end.

(** Modelled from the spec: [fgets] belongs to the C library, not to the
    sources.  The spec's fetch_line reads up to capacity-1 bytes up to and
    including the first line terminator, like a standard buffered line
    read, and signals end of stream when no data is available; a read
    error is the other way the read comes back empty-handed.  On success
    the characters and a terminating NUL are stored at the start of the
    buffer and the rest of the buffer keeps its content. *)
Definition fgets (buf : list Z) (size : nat) (f : FILE)
  : option (list Z) * FILE :=
  let '(got, why) := read_line (size - 1) (unread f) in
  let f' := mk_file (drop (length got) (unread f)) (ending f) in
  match why, ending f, got with
  | Drained, IoError, _ => (None, f')
  | Drained, AtEof, [] => (None, f')
  | _, _, _ => (Some (got ++ NUL :: drop (S (length got)) buf), f')
  end.

(** The stream after [k] line reads, whatever is done with the lines. *)
Definition skip_line (size : nat) (f : FILE) : FILE :=
  mk_file (drop (length (fst (read_line (size - 1) (unread f)))) (unread f))
          (ending f).

Fixpoint skip_lines (size : nat) (k : nat) (f : FILE) : FILE :=
  match k with
  | O => f
  | S k' => skip_lines size k' (skip_line size f)
  end.

(** ** The state of a call *)

(** Calls into the C library, in the order they are made. *)
Inductive event : Type :=
  | CallFgets
  | CallInetPton (src : list Z).

Definition is_fgets (e : event) : bool :=
  match e with CallFgets => true | CallInetPton _ => false end.

Definition is_inet_pton (e : event) : bool :=
  match e with CallFgets => false | CallInetPton _ => true end.

Record machine : Type := mk_machine {
  stream : FILE;                     (* FILE *stream *)
  route : netlib_ipv6_route_s;       (* *route, the caller's record *)
  line : list Z;                     (* char line[PROCFS_LINELEN] *)
  calls : list event
}.

(** How a piece of the function body ends: it falls through to the next
    statement, executes [return v], or has no defined behaviour. *)
Inductive flow (A : Type) : Type :=
  | Next (a : A)
  | Return (v : Z)
  | Undefined.
Arguments Next {A} a.
Arguments Return {A} v.
Arguments Undefined {A}.

Definition M (A : Type) : Type := machine -> flow A * machine.

Definition next {A} (a : A) : M A := fun s => (Next a, s).
Definition return_ {A} (v : Z) : M A := fun s => (Return v, s).

Definition bind {A B} (m : M A) (k : A -> M B) : M B :=
  fun s =>
    match m s with
    | (Next a, s') => k a s'
    | (Return v, s') => (Return v, s')
    | (Undefined, s') => (Undefined, s')
    end.

Declare Scope c_scope.
Delimit Scope c_scope with C.
Notation "'let*' x := m 'in' k" := (bind m (fun x => k))
  (at level 10, x name, m at level 100, k at level 200) : c_scope.
Notation "m ;; k" := (bind m (fun _ => k))
  (at level 100, k at level 200, right associativity) : c_scope.

(** ** Statements of the function body *)

Definition log (e : event) (s : machine) : machine :=
  mk_machine (stream s) (route s) (line s) (calls s ++ [e]).

(** [fgets(line, size, stream)]; the result says whether the returned
    pointer is non-NULL. *)
Definition call_fgets (size : nat) : M bool :=
  fun s =>
    match fgets (line s) size (stream s) with
    | (Some buf, f') =>
        (Next true, log CallFgets (mk_machine f' (route s) buf (calls s)))
    | (None, f') =>
        (Next false, log CallFgets (mk_machine f' (route s) (line s) (calls s)))
    end.

(** [line[i]] as a value. *)
Definition line_at (i : nat) : M Z :=
  fun s =>
    match line s !! i with
    | Some c => (Next c, s)
    | None => (Undefined, s)
    end.

(** [line[i] = c]. *)
Definition store_line (i : nat) (c : Z) : M unit :=
  fun s =>
    if decide (i < length (line s))%nat
    then (Next tt, mk_machine (stream s) (route s) (<[i := c]> (line s)) (calls s))
    else (Undefined, s).

(** [addr = &line[off]; set_nul_terminator(addr)]. *)
Definition call_set_nul_terminator (off : nat) : M unit :=
  fun s =>
    match set_nul_terminator (line s) off with
    | Some buf => (Next tt, mk_machine (stream s) (route s) buf (calls s))
    | None => (Undefined, s)
    end.

Section WithConversion.

(** [inet_pton(AF_INET6, src, dst)] belongs to the C library.  It is given
    the text at [src] and the present content of [*dst], and yields its
    return value and the content of [*dst] afterwards. *)
Variable inet_pton : list Z -> in6_addr -> Z * in6_addr.

(** [inet_pton(AF_INET6, &line[off], &route->fld)]. *)
Definition call_inet_pton (off : nat) (fld : field) : M Z :=
  fun s =>
    match c_string (drop off (line s)) with
    | Some src =>
        let '(ret, dst) := inet_pton src (get_field fld (route s)) in
        (Next ret,
         log (CallInetPton src)
             (mk_machine (stream s) (set_field fld dst (route s)) (line s) (calls s)))
    | None => (Undefined, s)
    end.

Local Open Scope c_scope.

(** Lines 141-158, and again 176-193 and 211-228 with the netmask and the
    router member: force a NUL into the last byte of the line, cut the
    address text at column ADDR_OFFSET and convert it into the member. *)
Definition convert_address (fld : field) : M unit :=
  store_line (PROCFS_LINELEN - 1) NUL ;;
  call_set_nul_terminator ADDR_OFFSET ;;
  let* ret := call_inet_pton ADDR_OFFSET fld in
  if ret <? 0 then return_ ret
  else if ret =? 0 then return_ (- EINVAL)
  else next tt.

(** The test of line 136, [line[0] < '0' || line[0] > 9]: the right-hand
    bound is the integer 9, as in the source. *)
Definition bad_index_char (c : Z) : bool := (c <? ch "0") || (c >? 9).

(** Lines 125-158: the first line of the group. *)
Definition read_target_line : M unit :=
  let* got := call_fgets PROCFS_LINELEN in
  if negb got then return_ 0
  else
    let* c := line_at 0 in
    if bad_index_char c then return_ (- EINVAL)
    else convert_address Prefix.

(** Lines 160-193: the second line of the group. *)
Definition read_netmask_line : M unit :=
  let* got := call_fgets PROCFS_LINELEN in
  if negb got then return_ 0
  else
    let* c := line_at 0 in
    if negb (c =? ch " ") then return_ (- EINVAL)
    else convert_address Netmask.

(** Lines 195-228: the third line of the group. *)
Definition read_router_line : M unit :=
  let* got := call_fgets PROCFS_LINELEN in
  if negb got then return_ 0
  else
    let* c := line_at 0 in
    if negb (c =? ch " ") then return_ (- EINVAL)
    else convert_address Router.

(** The body of [netlib_read_ipv6route]. *)
Definition netlib_read_ipv6route_body : M Z :=
  read_target_line ;;
  read_netmask_line ;;
  read_router_line ;;
  return_ sizeof_route.

(** The value a call hands back: [None] for undefined behaviour. *)
Definition returned {A} (r : flow A) : option Z :=
  match r with
  | Return v => Some v
  | Next _ => None
  | Undefined => None
  end.

(** A call [netlib_read_ipv6route(stream, route)] with two valid
    pointers, as the DEBUGASSERT of line 114 asks.  [stack] is what the
    58 bytes of the uninitialised local array [line] hold on entry.  The
    result is the returned value and the state in which the call ends. *)
Definition netlib_read_ipv6route
    (f : FILE) (r : netlib_ipv6_route_s) (stack : list Z)
  : option Z * machine :=
  let '(out, s) := netlib_read_ipv6route_body (mk_machine f r stack []) in
  (returned out, s).

End WithConversion.

(** ** A conversion to run the function with *)

Definition hex_value (c : Z) : option Z :=
  if (ch "0" <=? c) && (c <=? ch "9") then Some (c - ch "0")
  else if (ch "a" <=? c) && (c <=? ch "f") then Some (c - ch "a" + 10)
  else if (ch "A" <=? c) && (c <=? ch "F") then Some (c - ch "A" + 10)
  else None.

(** The 16-bit groups of an address text read left to right: [acc] holds
    the groups completed so far, [gap] the number of groups in front of a
    double colon once one was met, [cur] the value and the number of
    digits of the group being read. *)
Fixpoint hex_groups (s : list Z) (acc : list Z) (gap : option nat)
    (cur : option (Z * nat)) : option (list Z * option nat) :=
  match s with
  | [] =>
      match cur with
      | Some (v, _) => Some (acc ++ [v], gap)
      | None => Some (acc, gap)
      end
  | c :: s' =>
      if c =? ch ":" then
        match cur with
        | Some (v, _) =>
            match s' with
            | [] => None
            | _ => hex_groups s' (acc ++ [v]) gap None
            end
        | None =>
            match gap with
            | Some _ => None
            | None => hex_groups s' acc (Some (length acc)) None
            end
        end
      else
        match hex_value c with
        | None => None
        | Some d =>
            match cur with
            | None => hex_groups s' acc gap (Some (d, 1%nat))
            | Some (v, n) =>
                if (4 <=? n)%nat then None
                else hex_groups s' acc gap (Some (v * 16 + d, S n))
            end
        end
  end.

(** Modelled from the spec: "standard textual-to-binary IPv6 address
    conversion": hexadecimal groups separated by colons, with at most one
    double colon standing for a run of zero groups.  The dotted IPv4 tail
    is left out: a dot ends the text that [set_nul_terminator] cuts, so it
    never reaches the conversion. *)
Definition ipv6_groups (src : list Z) : option (list Z) :=
  body ← match src with
         | c :: rest =>
             if c =? ch ":" then
               match rest with
               | c2 :: _ => if c2 =? ch ":" then Some rest else None
               | [] => None
               end
             else Some src
         | [] => Some []
         end;
  '(gs, gap) ← hex_groups body [] None None;
  match gap with
  | None => if (length gs =? 8)%nat then Some gs else None
  | Some i =>
      if (length gs <? 8)%nat
      then Some (take i gs ++ replicate (8 - length gs) 0 ++ drop i gs)
      else None
  end.

Definition group_bytes (g : Z) : list Z := [g / 256; g mod 256].

(** The conversion as a value for the parameter of the section above: 1
    and the sixteen bytes on success, 0 and an untouched destination when
    the text is not an address. *)
Definition inet_pton_text (src : list Z) (dst : in6_addr) : Z * in6_addr :=
  match ipv6_groups src with
  | Some gs => (1, concat (map group_bytes gs))
  | None => (0, dst)
  end.

(** The number of lines a call has asked the stream for. *)
Fixpoint fgets_calls (tr : list event) : nat :=
  match tr with
  | [] => 0%nat
  | e :: tr' => ((if is_fgets e then 1 else 0) + fgets_calls tr')%nat
  end.

(** The number of conversions a call has made. *)
Fixpoint inet_pton_calls (tr : list event) : nat :=
  match tr with
  | [] => 0%nat
  | e :: tr' => ((if is_inet_pton e then 1 else 0) + inet_pton_calls tr')%nat
  end.

(** ** Sample data *)

Definition lf : string := String "010" EmptyString.

Definition target_line : string := "1000. target:  2001:db8::" ++ lf.
Definition netmask_line : string := "      netmask: ffff:ffff:ffff:ffff::" ++ lf.
Definition router_line : string := "      router:  fe80::1" ++ lf.

(** One entry of the table in the layout of the comment at line 48. *)
Definition one_entry : FILE :=
  mk_file (text (target_line ++ netmask_line ++ router_line)) AtEof.

(** A table cut off after the target line. *)
Definition target_only : FILE := mk_file (text target_line) AtEof.

Definition empty_table : FILE := mk_file [] AtEof.
Definition failing_table : FILE := mk_file [] IoError.

Definition blank_route : netlib_ipv6_route_s :=
  mk_route (replicate 16 0) (replicate 16 0) (replicate 16 0).

(** Some content for the uninitialised line buffer. *)
Definition stale_stack : list Z := replicate PROCFS_LINELEN (ch "f").

(** ** Notions used in the statements *)

(** The set of characters the scan steps over, spelled out. *)
Definition address_character (c : Z) : Prop :=
  (ch "0" <= c <= ch "9") \/ (ch "a" <= c <= ch "f") \/
  (ch "A" <= c <= ch "F") \/ c = ch ":".

(** The state right after a line read that delivered [buf]. *)
Definition after_fgets (s : machine) (buf : list Z) (f' : FILE) : machine :=
  mk_machine f' (route s) buf (calls s ++ [CallFgets]).

(** Lines 141-230: what follows the index test of the first line. *)
Definition rest_of_entry
    (inet_pton : list Z -> in6_addr -> Z * in6_addr) : M Z :=
  (convert_address inet_pton Prefix ;;
   read_netmask_line inet_pton ;;
   read_router_line inet_pton ;;
   return_ sizeof_route)%C.

(** The three stages by the member they fill. *)
Definition read_stage (inet_pton : list Z -> in6_addr -> Z * in6_addr)
    (fld : field) : M unit :=
  match fld with
  | Prefix => read_target_line inet_pton
  | Netmask => read_netmask_line inet_pton
  | Router => read_router_line inet_pton
  end.

(** The line buffer after the first read of the sample entry. *)
Definition first_line_read : list Z :=
  default stale_stack (fst (fgets stale_stack PROCFS_LINELEN one_entry)).

(** A line of the table: a label part, the address text and the newline. *)
Definition entry_line (lead tok : list Z) : list Z := lead ++ tok ++ [newline].

(** The layout of the comment at line 48: the label part fills the columns
    in front of ADDR_OFFSET, the address text is made of hexadecimal digits
    and colons, and the line with its newline fits the buffer. *)
Definition laid_out (lead tok : list Z) : bool :=
  (length lead =? ADDR_OFFSET)%nat &&
  forallb (fun c => negb (c =? newline)) lead &&
  forallb is_addr_char tok &&
  (ADDR_OFFSET + length tok + 1 <=? PROCFS_LINELEN - 1)%nat.

(** A conversion that refuses everything with -1 and leaves the
    destination alone, as [inet_pton] does for an address family it does
    not support. *)
Definition inet_pton_refusing (src : list Z) (dst : in6_addr) : Z * in6_addr :=
  (-1, dst).

(** The state in which the first line of the sample entry has been read
    and nothing is left on the stream. *)
Definition target_line_read : machine :=
  mk_machine empty_table blank_route first_line_read [CallFgets].

(** The state in which the first line of the sample entry has been read
    and the rest of the entry is still on the stream. *)
Definition entry_under_way : machine :=
  mk_machine (mk_file (text (netmask_line ++ router_line)) AtEof)
             blank_route first_line_read [CallFgets].

(** The state after the first conversion of the sample entry, with a
    line of two spaces as the next line of the stream. *)
Definition before_short_line : machine :=
  mk_machine (mk_file (text "  " ++ newline :: text router_line) AtEof)
             blank_route (<[25%nat := NUL]> first_line_read) [CallFgets].



(** * Properties *)

(** ** Characters *)

Lemma ch_values :
  ch "0" = 48 /\ ch "9" = 57 /\ ch "a" = 97 /\ ch "f" = 102 /\
  ch "A" = 65 /\ ch "F" = 70 /\ ch ":" = 58 /\ ch " " = 32.
Proof. repeat split; reflexivity. Qed.

Lemma is_addr_char_spec c : is_addr_char c = true <-> address_character c.
Proof.
  unfold is_addr_char, address_character.
  rewrite !orb_true_iff, !andb_true_iff, !Z.leb_le, Z.eqb_eq. tauto.
Qed.

Lemma is_addr_char_false c : is_addr_char c = false <-> ~ address_character c.
Proof.
  rewrite <- is_addr_char_spec. destruct (is_addr_char c); split; congruence.
Qed.

Lemma NUL_not_addr_char : is_addr_char NUL = false.
Proof. reflexivity. Qed.

(** Line 136 holds for every value a [char] can take, signed or not. *)
Lemma bad_index_char_always c : bad_index_char c = true.
Proof.
  unfold bad_index_char. apply orb_true_iff.
  destruct (Z.ltb_spec c (ch "0")) as [|Hge]; [now left|right].
  apply Z.gtb_lt. destruct ch_values as [E _]. rewrite E in Hge. lia.
Qed.

(** ** The scan of set_nul_terminator *)

Lemma scan_address_stop s n :
  scan_address s = Some n ->
  (n < length s)%nat /\
  (exists c, s !! n = Some c /\ is_addr_char c = false) /\
  (forall j, (j < n)%nat -> exists c, s !! j = Some c /\ is_addr_char c = true).
Proof.
  revert n. induction s as [|c s IH]; intros n H; simpl in H; [discriminate|].
  destruct (is_addr_char c) eqn:Ec.
  - destruct (scan_address s) as [m|] eqn:Es; simpl in H; [|discriminate].
    injection H as <-. destruct (IH m eq_refl) as (Hlt & Hstop & Hbefore).
    split; [simpl; lia|]. split; [exact Hstop|].
    intros [|j] Hj; simpl; [eauto|]. apply Hbefore. lia.
  - injection H as <-. split; [simpl; lia|]. split; [simpl; eauto|].
    intros j Hj. lia.
Qed.

(** A character outside the set, somewhere in the text, stops the scan at
    or before it. *)
Lemma scan_address_finds s p c :
  s !! p = Some c -> is_addr_char c = false ->
  exists n, scan_address s = Some n /\ (n <= p)%nat.
Proof.
  revert p. induction s as [|d s IH]; intros p Hp Hc; [discriminate|].
  simpl. destruct (is_addr_char d) eqn:Ed.
  - destruct p as [|p]; simpl in Hp; [congruence|].
    destruct (IH p Hp Hc) as (n & -> & Hn). exists (S n). split; [reflexivity|lia].
  - exists 0%nat. split; [reflexivity|lia].
Qed.

(** C8.  When the buffer holds a NUL at or after the start offset,
    [set_nul_terminator] is defined and writes its terminator at one
    position [p]: every character from the offset up to [p] is a
    hexadecimal digit or a colon, the character at [p] is not, [p] holds
    the NUL afterwards, and every other position of the buffer, before the
    offset, between the offset and [p], and after [p], keeps its
    character. *)
Theorem set_nul_terminator_first_stop (buf : list Z) (off q : nat) :
  (off <= q)%nat ->
  buf !! q = Some NUL ->
  exists (p : nat) (buf' : list Z),
    set_nul_terminator buf off = Some buf' /\
    (off <= p <= q)%nat /\
    (forall j, (off <= j < p)%nat ->
       exists c, buf !! j = Some c /\ address_character c) /\
    (exists c, buf !! p = Some c /\ ~ address_character c) /\
    buf' !! p = Some NUL /\
    (forall j, j <> p -> buf' !! j = buf !! j) /\
    length buf' = length buf.
Proof.
  intros Hle Hq.
  assert (Hd : drop off buf !! (q - off)%nat = Some NUL).
  { rewrite lookup_drop. replace (off + (q - off))%nat with q by lia. exact Hq. }
  destruct (scan_address_finds _ _ _ Hd NUL_not_addr_char) as (n & Hn & Hnq).
  destruct (scan_address_stop _ _ Hn) as (Hlt & (c & Hc & Hstop) & Hbefore).
  rewrite length_drop in Hlt. rewrite lookup_drop in Hc.
  exists (off + n)%nat, (<[(off + n)%nat := NUL]> buf).
  split. { unfold set_nul_terminator. rewrite Hn. reflexivity. }
  split; [lia|]. split.
  { intros j Hj. destruct (Hbefore (j - off)%nat) as (d & Hd1 & Hd2); [lia|].
    rewrite lookup_drop in Hd1. replace (off + (j - off))%nat with j in Hd1 by lia.
    exists d. split; [exact Hd1|]. now apply is_addr_char_spec. }
  split. { exists c. split; [exact Hc|]. now apply is_addr_char_false. }
  split. { apply list_lookup_insert_eq. lia. }
  split. { intros j Hj. apply list_lookup_insert_ne. congruence. }
  apply length_insert.
Qed.

Lemma set_nul_terminator_first_stop_witness :
  exists (p : nat) (buf' : list Z),
    set_nul_terminator (text "router:  fe80::1 via" ++ [NUL]) 9 = Some buf' /\
    (9 <= p <= 20)%nat /\
    buf' !! p = Some NUL.
Proof.
  destruct (set_nul_terminator_first_stop
              (text "router:  fe80::1 via" ++ [NUL]) 9 20)
    as (p & buf' & H1 & H2 & _ & _ & H5 & _).
  - lia.
  - reflexivity.
  - exists p, buf'. repeat split; solve [exact H1 | apply H2 | exact H5].
Defined.

(** The terminator forced into the last byte of the line stops the scan
    that starts at column ADDR_OFFSET. *)
Lemma scan_bounded_by_forced_nul (buf : list Z) :
  length buf = PROCFS_LINELEN ->
  exists n,
    scan_address
      (drop ADDR_OFFSET (<[(PROCFS_LINELEN - 1)%nat := NUL]> buf)) = Some n /\
    (ADDR_OFFSET + n <= PROCFS_LINELEN - 1)%nat.
Proof.
  intros Hlen.
  assert (H : drop ADDR_OFFSET (<[(PROCFS_LINELEN - 1)%nat := NUL]> buf)
                !! (PROCFS_LINELEN - 1 - ADDR_OFFSET)%nat = Some NUL).
  { rewrite lookup_drop. apply list_lookup_insert_eq.
    rewrite Hlen. unfold PROCFS_LINELEN, ADDR_OFFSET. lia. }
  destruct (scan_address_finds _ _ _ H NUL_not_addr_char) as (n & Hn & Hle).
  exists n. split; [exact Hn|].
  unfold PROCFS_LINELEN, ADDR_OFFSET in *. lia.
Qed.

(** A successful [fgets] into an array of [size] bytes returns an array of
    the same length, which has a first character. *)
Lemma read_line_length n s : (length (fst (read_line n s)) <= n)%nat.
Proof.
  revert s. induction n as [|n IH]; intros s; simpl; [lia|].
  destruct s as [|c s]; simpl; [lia|].
  destruct (c =? newline); simpl; [lia|].
  specialize (IH s). destruct (read_line n s) as [l why]. simpl in *. lia.
Qed.

Lemma fgets_length buf size f buf' f' :
  fgets buf size f = (Some buf', f') ->
  length buf = size -> (0 < size)%nat ->
  length buf' = size.
Proof.
  unfold fgets. intros H Hlen Hpos.
  pose proof (read_line_length (size - 1) (unread f)) as Hl.
  destruct (read_line (size - 1) (unread f)) as [got why]. simpl in Hl.
  assert (E : length (got ++ NUL :: drop (S (length got)) buf) = size).
  { rewrite length_app. simpl. rewrite length_drop. lia. }
  destruct why, (ending f), got; try discriminate; injection H as <- _; exact E.
Qed.

Lemma fgets_first buf size f buf' f' :
  fgets buf size f = (Some buf', f') -> exists c, buf' !! 0%nat = Some c.
Proof.
  unfold fgets. intros H.
  destruct (read_line (size - 1) (unread f)) as [got why].
  assert (E : exists c, (got ++ NUL :: drop (S (length got)) buf) !! 0%nat = Some c).
  { destruct got; simpl; eauto. }
  destruct why, (ending f), got; try discriminate; injection H as <- _; exact E.
Qed.

Lemma fgets_stream buf size f : snd (fgets buf size f) = skip_line size f.
Proof.
  unfold fgets, skip_line.
  destruct (read_line (size - 1) (unread f)) as [got why]. simpl.
  destruct why, (ending f), got; reflexivity.
Qed.

(** ** The three stages *)

Section Stages.

Variable inet_pton : list Z -> in6_addr -> Z * in6_addr.

(** The first stage never gets past line 139: it returns 0 when the read
    comes back empty-handed and -EINVAL for every line it reads. *)
Lemma read_target_line_run (s : machine) :
  read_target_line inet_pton s =
  match fgets (line s) PROCFS_LINELEN (stream s) with
  | (Some buf, f') => (Return (- EINVAL), after_fgets s buf f')
  | (None, f') => (Return 0, after_fgets s (line s) f')
  end.
Proof.
  unfold read_target_line, bind, call_fgets, log, after_fgets.
  destruct (fgets (line s) PROCFS_LINELEN (stream s)) as [[buf|] f'] eqn:E; simpl.
  - destruct (fgets_first _ _ _ _ _ E) as [c Hc].
    unfold line_at. simpl. rewrite Hc, bad_index_char_always. reflexivity.
  - reflexivity.
Qed.

Lemma read_netmask_line_run (s : machine) :
  read_netmask_line inet_pton s =
  match fgets (line s) PROCFS_LINELEN (stream s) with
  | (Some buf, f') =>
      match buf !! 0%nat with
      | Some c =>
          if c =? ch " " then convert_address inet_pton Netmask (after_fgets s buf f')
          else (Return (- EINVAL), after_fgets s buf f')
      | None => (Undefined, after_fgets s buf f')
      end
  | (None, f') => (Return 0, after_fgets s (line s) f')
  end.
Proof.
  unfold read_netmask_line, bind, call_fgets, log, after_fgets.
  destruct (fgets (line s) PROCFS_LINELEN (stream s)) as [[buf|] f']; simpl;
    [|reflexivity].
  unfold line_at. simpl. destruct (buf !! 0%nat) as [c|]; [|reflexivity].
  destruct (c =? ch " "); reflexivity.
Qed.

Lemma read_router_line_run (s : machine) :
  read_router_line inet_pton s =
  match fgets (line s) PROCFS_LINELEN (stream s) with
  | (Some buf, f') =>
      match buf !! 0%nat with
      | Some c =>
          if c =? ch " " then convert_address inet_pton Router (after_fgets s buf f')
          else (Return (- EINVAL), after_fgets s buf f')
      | None => (Undefined, after_fgets s buf f')
      end
  | (None, f') => (Return 0, after_fgets s (line s) f')
  end.
Proof.
  unfold read_router_line, bind, call_fgets, log, after_fgets.
  destruct (fgets (line s) PROCFS_LINELEN (stream s)) as [[buf|] f']; simpl;
    [|reflexivity].
  unfold line_at. simpl. destruct (buf !! 0%nat) as [c|]; [|reflexivity].
  destruct (c =? ch " "); reflexivity.
Qed.

(** A whole call: one line read, then 0 or -EINVAL. *)
Lemma netlib_read_ipv6route_run (f : FILE) (r : netlib_ipv6_route_s)
    (stack : list Z) :
  netlib_read_ipv6route inet_pton f r stack =
  match fgets stack PROCFS_LINELEN f with
  | (Some buf, f') => (Some (- EINVAL), mk_machine f' r buf [CallFgets])
  | (None, f') => (Some 0, mk_machine f' r stack [CallFgets])
  end.
Proof.
  unfold netlib_read_ipv6route, netlib_read_ipv6route_body, bind.
  rewrite read_target_line_run. simpl.
  destruct (fgets stack PROCFS_LINELEN f) as [[buf|] f']; reflexivity.
Qed.

(** What [convert_address] does to a line of PROCFS_LINELEN bytes: the
    text handed to [inet_pton] is the run of address characters that
    starts at ADDR_OFFSET, and the conversion result is stored into the
    member whatever the return value is. *)
Lemma c_string_after_scan (s : list Z) (n : nat) :
  scan_address s = Some n ->
  c_string (<[n := NUL]> s) = Some (take n s).
Proof.
  revert n. induction s as [|c s IH]; intros n H; simpl in H; [discriminate|].
  destruct (is_addr_char c) eqn:Ec.
  - destruct (scan_address s) as [m|] eqn:Es; simpl in H; [|discriminate].
    injection H as <-. simpl.
    destruct (Z.eqb_spec c NUL) as [->|_]; [discriminate Ec|].
    rewrite (IH m eq_refl). reflexivity.
  - injection H as <-. reflexivity.
Qed.

Lemma convert_address_run (fld : field) (s : machine) :
  length (line s) = PROCFS_LINELEN ->
  exists (n : nat),
    let capped := <[(PROCFS_LINELEN - 1)%nat := NUL]> (line s) in
    let src := take n (drop ADDR_OFFSET capped) in
    let buf := <[(ADDR_OFFSET + n)%nat := NUL]> capped in
    let ret := fst (inet_pton src (get_field fld (route s))) in
    let dst := snd (inet_pton src (get_field fld (route s))) in
    let s' := mk_machine (stream s) (set_field fld dst (route s)) buf
                         (calls s ++ [CallInetPton src]) in
    scan_address (drop ADDR_OFFSET capped) = Some n /\
    (ADDR_OFFSET + n <= PROCFS_LINELEN - 1)%nat /\
    convert_address inet_pton fld s =
      (if ret <? 0 then Return ret
       else if ret =? 0 then Return (- EINVAL)
       else Next tt, s').
Proof.
  intros Hlen.
  destruct (scan_bounded_by_forced_nul (line s) Hlen) as (n & Hn & Hle).
  exists n. cbv zeta. split; [exact Hn|]. split; [exact Hle|].
  unfold convert_address, bind, store_line.
  destruct (decide (PROCFS_LINELEN - 1 < length (line s))%nat) as [_|Hno];
    [|exfalso; apply Hno; rewrite Hlen; unfold PROCFS_LINELEN; lia].
  unfold call_set_nul_terminator, set_nul_terminator. cbn [line].
  rewrite Hn. cbn [mbind option_bind]. unfold call_inet_pton.
  cbn [line route stream calls].
  assert (Hsrc : c_string
            (drop ADDR_OFFSET
               (<[(ADDR_OFFSET + n)%nat := NUL]>
                  (<[(PROCFS_LINELEN - 1)%nat := NUL]> (line s))))
          = Some (take n (drop ADDR_OFFSET
                     (<[(PROCFS_LINELEN - 1)%nat := NUL]> (line s))))).
  { rewrite drop_insert_ge by lia.
    replace (ADDR_OFFSET + n - ADDR_OFFSET)%nat with n by lia.
    apply c_string_after_scan, Hn. }
  rewrite Hsrc.
  destruct (inet_pton _ _) as [ret dst]. unfold log, return_, next.
  cbn [fst snd line route stream calls].
  destruct (ret <? 0); [reflexivity|]. destruct (ret =? 0); reflexivity.
Qed.

End Stages.

(** ** Frame properties of the stages *)

Section Frame.

Variable inet_pton : list Z -> in6_addr -> Z * in6_addr.

Lemma fgets_calls_app (tr : list event) (e : event) :
  fgets_calls (tr ++ [e]) = (fgets_calls tr + (if is_fgets e then 1 else 0))%nat.
Proof. induction tr as [|d tr IH]; simpl; [lia|]. rewrite IH. lia. Qed.

(** A conversion leaves the stream where it is and reads no line. *)
Lemma convert_address_frame (fld : field) (s : machine) :
  stream (snd (convert_address inet_pton fld s)) = stream s /\
  fgets_calls (calls (snd (convert_address inet_pton fld s))) = fgets_calls (calls s).
Proof.
  unfold convert_address, bind, store_line.
  destruct (decide (PROCFS_LINELEN - 1 < length (line s))%nat); [|split; reflexivity].
  unfold call_set_nul_terminator. cbn [line].
  destruct (set_nul_terminator _ ADDR_OFFSET) as [buf|]; [|split; reflexivity].
  unfold call_inet_pton. cbn [line route stream calls].
  destruct (c_string (drop ADDR_OFFSET buf)) as [src|]; [|split; reflexivity].
  destruct (inet_pton src _) as [ret dst]. unfold log, return_, next.
  cbn [line route stream calls].
  assert (E : fgets_calls (calls s ++ [CallInetPton src]) = fgets_calls (calls s)).
  { rewrite fgets_calls_app. simpl. lia. }
  destruct (ret <? 0); [split; [reflexivity|exact E]|].
  destruct (ret =? 0); split; solve [reflexivity | exact E].
Qed.

Lemma after_fgets_frame (s : machine) (buf : list Z) (f' : FILE) :
  f' = snd (fgets (line s) PROCFS_LINELEN (stream s)) ->
  stream (after_fgets s buf f') = skip_line PROCFS_LINELEN (stream s) /\
  fgets_calls (calls (after_fgets s buf f')) = S (fgets_calls (calls s)).
Proof.
  intros ->. unfold after_fgets. cbn [stream calls].
  rewrite fgets_stream, fgets_calls_app. simpl. split; [reflexivity|lia].
Qed.

(** Each stage asks the stream for exactly one line. *)
Lemma read_target_line_frame (s : machine) :
  stream (snd (read_target_line inet_pton s)) = skip_line PROCFS_LINELEN (stream s) /\
  fgets_calls (calls (snd (read_target_line inet_pton s))) = S (fgets_calls (calls s)).
Proof.
  rewrite read_target_line_run.
  destruct (fgets (line s) PROCFS_LINELEN (stream s)) as [[buf|] f'] eqn:E;
    cbn [snd]; apply after_fgets_frame; rewrite E; reflexivity.
Qed.



End Frame.

(** ** A well-formed group past the index test *)

Lemma newline_not_addr_char : is_addr_char newline = false.
Proof. reflexivity. Qed.

Lemma addr_text_no_newline tok :
  forallb is_addr_char tok = true ->
  forallb (fun c => negb (c =? newline)) tok = true.
Proof.
  induction tok as [|c tok IH]; simpl; [reflexivity|].
  intros [Hc Ht]%andb_true_iff. rewrite (IH Ht), andb_true_r.
  destruct (Z.eqb_spec c newline) as [->|]; [discriminate Hc|reflexivity].
Qed.

Lemma read_line_whole (n : nat) (l rest : list Z) :
  forallb (fun c => negb (c =? newline)) l = true ->
  (length l < n)%nat ->
  read_line n (l ++ newline :: rest) = (l ++ [newline], Newline).
Proof.
  revert n. induction l as [|c l IH]; intros n Hl Hn.
  - destruct n as [|n]; [simpl in Hn; lia|]. reflexivity.
  - destruct n as [|n]; [simpl in Hn; lia|].
    simpl in Hl. apply andb_true_iff in Hl as [Hc Hl].
    simpl. destruct (c =? newline); [discriminate Hc|].
    rewrite IH; [reflexivity|exact Hl|simpl in Hn; lia].
Qed.

Lemma scan_address_text (tok : list Z) (c : Z) (tail : list Z) :
  forallb is_addr_char tok = true -> is_addr_char c = false ->
  scan_address (tok ++ c :: tail) = Some (length tok).
Proof.
  intros Ht Hc. induction tok as [|d tok IH]; simpl.
  - rewrite Hc. reflexivity.
  - simpl in Ht. apply andb_true_iff in Ht as [Hd Ht].
    rewrite Hd, (IH Ht). reflexivity.
Qed.

Lemma laid_out_inv lead tok :
  laid_out lead tok = true ->
  length lead = ADDR_OFFSET /\
  forallb (fun c => negb (c =? newline)) (lead ++ tok) = true /\
  forallb is_addr_char tok = true /\
  (length (lead ++ tok) < PROCFS_LINELEN - 1)%nat.
Proof.
  unfold laid_out. rewrite !andb_true_iff, Nat.eqb_eq, Nat.leb_le.
  intros [[[Hlen Hlead] Htok] Hfit]. split; [exact Hlen|]. split.
  - rewrite forallb_app, Hlead. apply addr_text_no_newline, Htok.
  - split; [exact Htok|]. rewrite length_app. lia.
Qed.

(** Reading a laid-out line: the whole line and nothing more is taken, and
    the buffer starts with the line. *)
Lemma fgets_entry_line (buf lead tok rest : list Z) (e : stream_end) :
  laid_out lead tok = true ->
  length buf = PROCFS_LINELEN ->
  exists tail,
    fgets buf PROCFS_LINELEN (mk_file (entry_line lead tok ++ rest) e)
      = (Some (lead ++ tok ++ newline :: tail), mk_file rest e) /\
    length (lead ++ tok ++ newline :: tail) = PROCFS_LINELEN.
Proof.
  intros (Hlen & Hnl & Htok & Hfit)%laid_out_inv Hbuf.
  exists (NUL :: drop (S (length ((lead ++ tok) ++ [newline]))) buf).
  unfold fgets, entry_line. cbn [unread ending].
  replace ((lead ++ tok ++ [newline]) ++ rest)
    with ((lead ++ tok) ++ newline :: rest)
    by (rewrite <- !app_assoc; reflexivity).
  rewrite (read_line_whole _ _ _ Hnl Hfit).
  assert (Hdrop : drop (length ((lead ++ tok) ++ [newline]))
                    ((lead ++ tok) ++ newline :: rest) = rest).
  { replace ((lead ++ tok) ++ newline :: rest)
      with (((lead ++ tok) ++ [newline]) ++ rest)
      by (rewrite <- !app_assoc; reflexivity).
    apply drop_app_length. }
  rewrite Hdrop.
  assert (Hshape : ((lead ++ tok) ++ [newline])
                     ++ NUL :: drop (S (length ((lead ++ tok) ++ [newline]))) buf
                   = lead ++ tok ++ newline
                       :: NUL :: drop (S (length ((lead ++ tok) ++ [newline]))) buf).
  { rewrite <- !app_assoc. reflexivity. }
  split.
  - destruct e; rewrite Hshape; reflexivity.
  - rewrite <- Hshape, !length_app. cbn [length]. rewrite length_drop.
    rewrite !length_app in *. cbn [length]. unfold PROCFS_LINELEN in *. lia.
Qed.

Section PastIndexTest.

Variable inet_pton : list Z -> in6_addr -> Z * in6_addr.

(** The conversion block on a buffer that starts with a laid-out line:
    the text handed to [inet_pton] is the address text of the line. *)
Lemma convert_address_entry_line (fld : field) (s : machine)
    (lead tok tail : list Z) :
  laid_out lead tok = true ->
  line s = lead ++ tok ++ newline :: tail ->
  length (line s) = PROCFS_LINELEN ->
  0 < fst (inet_pton tok (get_field fld (route s))) ->
  exists buf,
    convert_address inet_pton fld s
      = (Next tt,
         mk_machine (stream s)
           (set_field fld (snd (inet_pton tok (get_field fld (route s)))) (route s))
           buf (calls s ++ [CallInetPton tok])) /\
    length buf = PROCFS_LINELEN.
Proof.
  intros (Hlead & _ & Htok & Hfit)%laid_out_inv Hline Hlen Hpos.
  destruct (convert_address_run inet_pton fld s Hlen) as (n & Hn & Hle & Hrun).
  cbv zeta in Hn, Hle, Hrun.
  assert (Hcap : drop ADDR_OFFSET (<[(PROCFS_LINELEN - 1)%nat := NUL]> (line s))
                 = tok ++ newline
                     :: <[(PROCFS_LINELEN - 1 - ADDR_OFFSET - length tok - 1)%nat := NUL]> tail).
  { rewrite Hline. rewrite length_app in Hfit.
    rewrite insert_app_r_alt by (rewrite Hlead; unfold PROCFS_LINELEN, ADDR_OFFSET; lia).
    rewrite <- Hlead at 1. rewrite drop_app_length.
    rewrite insert_app_r_alt by lia.
    replace (PROCFS_LINELEN - 1 - length lead - length tok)%nat
      with (S (PROCFS_LINELEN - 1 - ADDR_OFFSET - length tok - 1)) by lia.
    reflexivity. }
  rewrite Hcap in Hn, Hrun.
  rewrite (scan_address_text tok newline _ Htok newline_not_addr_char) in Hn.
  injection Hn as <-.
  rewrite take_app_length in Hrun.
  eexists. split.
  - rewrite Hrun.
    destruct (Z.ltb_spec (fst (inet_pton tok (get_field fld (route s)))) 0); [lia|].
    destruct (Z.eqb_spec (fst (inet_pton tok (get_field fld (route s)))) 0); [lia|].
    reflexivity.
  - rewrite !length_insert. exact Hlen.
Qed.


(** A continuation stage on a laid-out line that opens with a space. *)
Lemma continuation_stage_entry_line (fld : field) (s : machine)
    (lead tok rest : list Z) (e : stream_end) :
  fld = Netmask \/ fld = Router ->
  laid_out lead tok = true ->
  lead !! 0%nat = Some (ch " ") ->
  stream s = mk_file (entry_line lead tok ++ rest) e ->
  length (line s) = PROCFS_LINELEN ->
  0 < fst (inet_pton tok (get_field fld (route s))) ->
  exists buf,
    read_stage inet_pton fld s
      = (Next tt,
         mk_machine (mk_file rest e)
           (set_field fld (snd (inet_pton tok (get_field fld (route s)))) (route s))
           buf (calls s ++ [CallFgets; CallInetPton tok])) /\
    length buf = PROCFS_LINELEN.
Proof.
  intros Hfld Hlay Hsp Hstream Hlen Hpos.
  destruct (fgets_entry_line (line s) lead tok rest e Hlay Hlen)
    as (tail & Hread & Hlen').
  rewrite <- Hstream in Hread.
  assert (Hfirst : (lead ++ tok ++ newline :: tail) !! 0%nat = Some (ch " ")).
  { destruct lead; [discriminate Hsp|exact Hsp]. }
  destruct (convert_address_entry_line fld
              (after_fgets s (lead ++ tok ++ newline :: tail) (mk_file rest e))
              lead tok tail Hlay eq_refl Hlen' Hpos) as (buf & Hconv & Hbuf).
  exists buf. split; [|exact Hbuf].
  unfold after_fgets in Hconv. cbn [stream route calls] in Hconv.
  rewrite <- app_assoc in Hconv. cbn [app] in Hconv.
  destruct Hfld as [-> | ->]; cbn [read_stage].
  - rewrite read_netmask_line_run, Hread, Hfirst, Z.eqb_refl. exact Hconv.
  - rewrite read_router_line_run, Hread, Hfirst, Z.eqb_refl. exact Hconv.
Qed.


(** X1.  Past the index test: on a well-formed group (three laid-out lines,
    the second and third opening with a space) whose three address texts
    [inet_pton] accepts, the statements that follow the index test of the
    first line return the size of the record, with prefix, netmask and
    router holding the conversions of the three texts in that order, and
    leave the stream right behind the third line. *)
Theorem entry_converted_past_index_test
    (lead1 tok1 lead2 tok2 lead3 tok3 more : list Z) (e : stream_end)
    (r : netlib_ipv6_route_s) (stack : list Z) :
  length stack = PROCFS_LINELEN ->
  laid_out lead1 tok1 = true ->
  laid_out lead2 tok2 = true ->
  laid_out lead3 tok3 = true ->
  lead2 !! 0%nat = Some (ch " ") ->
  lead3 !! 0%nat = Some (ch " ") ->
  0 < fst (inet_pton tok1 (prefix r)) ->
  0 < fst (inet_pton tok2 (netmask r)) ->
  0 < fst (inet_pton tok3 (router r)) ->
  exists (buf : list Z) (f1 : FILE) (s' : machine),
    fgets stack PROCFS_LINELEN
      (mk_file (entry_line lead1 tok1 ++ entry_line lead2 tok2
                  ++ entry_line lead3 tok3 ++ more) e) = (Some buf, f1) /\
    rest_of_entry inet_pton (mk_machine f1 r buf [CallFgets])
      = (Return sizeof_route, s') /\
    route s' = mk_route (snd (inet_pton tok1 (prefix r)))
                        (snd (inet_pton tok2 (netmask r)))
                        (snd (inet_pton tok3 (router r))) /\
    stream s' = mk_file more e.
Proof.
  intros Hstack H1 H2 H3 Hsp2 Hsp3 Hp1 Hp2 Hp3.
  destruct (fgets_entry_line stack lead1 tok1
              (entry_line lead2 tok2 ++ entry_line lead3 tok3 ++ more) e H1 Hstack)
    as (tail1 & Hread1 & Hlen1).
  set (s0 := mk_machine
               (mk_file (entry_line lead2 tok2 ++ entry_line lead3 tok3 ++ more) e)
               r (lead1 ++ tok1 ++ newline :: tail1) [CallFgets]).
  destruct (convert_address_entry_line Prefix s0 lead1 tok1 tail1 H1 eq_refl Hlen1 Hp1)
    as (buf1 & Hconv1 & Hbuf1).
  cbn [s0 stream route calls get_field set_field] in Hconv1.
  set (s1 := mk_machine _ _ buf1 _) in Hconv1.
  destruct (continuation_stage_entry_line Netmask s1 lead2 tok2
              (entry_line lead3 tok3 ++ more) e (or_introl eq_refl) H2 Hsp2
              eq_refl Hbuf1 Hp2) as (buf2 & Hconv2 & Hbuf2).
  cbn [s1 stream route calls get_field set_field prefix netmask router read_stage]
    in Hconv2.
  set (s2 := mk_machine _ _ buf2 _) in Hconv2.
  destruct (continuation_stage_entry_line Router s2 lead3 tok3 more e
              (or_intror eq_refl) H3 Hsp3 eq_refl Hbuf2 Hp3)
    as (buf3 & Hconv3 & Hbuf3).
  cbn [s2 stream route calls get_field set_field prefix netmask router read_stage]
    in Hconv3.
  eexists _, _, _. split; [exact Hread1|].
  unfold rest_of_entry, bind. fold s0. rewrite Hconv1, Hconv2, Hconv3.
  unfold return_. split; [reflexivity|]. split; reflexivity.
Qed.

End PastIndexTest.

(** ** The claims *)

Section Claims.

Variable inet_pton : list Z -> in6_addr -> Z * in6_addr.

(** C1.  The sample entry is a well-formed group: a digit-opened target
    line, space-opened netmask and router lines, and address text at
    column ADDR_OFFSET.  The call does not return the size of the record:
    it returns -EINVAL after the first line, has converted nothing, and
    leaves the caller's record as it was. *)
Theorem well_formed_entry_is_rejected (r : netlib_ipv6_route_s) (stack : list Z) :
  fst (netlib_read_ipv6route inet_pton one_entry r stack) = Some (- EINVAL) /\
  fst (netlib_read_ipv6route inet_pton one_entry r stack) <> Some sizeof_route /\
  route (snd (netlib_read_ipv6route inet_pton one_entry r stack)) = r /\
  inet_pton_calls (calls (snd (netlib_read_ipv6route inet_pton one_entry r stack))) = 0%nat.
Proof.
  rewrite netlib_read_ipv6route_run.
  change (fgets stack PROCFS_LINELEN one_entry)
    with (Some (text target_line ++ NUL :: drop 27 stack),
          mk_file (text (netmask_line ++ router_line)) AtEof).
  cbn [fst snd route calls]. repeat split. discriminate.
Qed.

(** C2.  A first line that opens with a decimal digit does not pass the
    test of line 136: the call returns -EINVAL right after reading it,
    with the line untouched and no conversion attempted. *)
Theorem digit_opened_line_is_rejected
    (f : FILE) (r : netlib_ipv6_route_s) (stack buf : list Z) (f' : FILE) (c : Z) :
  fgets stack PROCFS_LINELEN f = (Some buf, f') ->
  buf !! 0%nat = Some c ->
  ch "0" <= c <= ch "9" ->
  bad_index_char c = true /\
  netlib_read_ipv6route inet_pton f r stack
    = (Some (- EINVAL), mk_machine f' r buf [CallFgets]).
Proof.
  intros Hread _ _. split; [apply bad_index_char_always|].
  rewrite netlib_read_ipv6route_run, Hread. reflexivity.
Qed.

(** C3.  A call that does not return the size of the record leaves every
    member of the caller's record as it was on entry. *)
Theorem record_unchanged_without_success
    (f : FILE) (r : netlib_ipv6_route_s) (stack : list Z) :
  fst (netlib_read_ipv6route inet_pton f r stack) <> Some sizeof_route ->
  route (snd (netlib_read_ipv6route inet_pton f r stack)) = r.
Proof.
  intros _. rewrite netlib_read_ipv6route_run.
  destruct (fgets stack PROCFS_LINELEN f) as [[buf|] f']; reflexivity.
Qed.

(** C4.  A read that comes back empty-handed makes each stage return 0,
    and the first call on an empty stream returns 0.  A stream that holds
    only a well-formed target line does not give 0: the call returns
    -EINVAL. *)
Theorem target_only_gives_error (r : netlib_ipv6_route_s) (stack : list Z) :
  (forall s, fst (fgets (line s) PROCFS_LINELEN (stream s)) = None ->
     fst (read_target_line inet_pton s) = Return 0 /\
     fst (read_netmask_line inet_pton s) = Return 0 /\
     fst (read_router_line inet_pton s) = Return 0) /\
  fst (netlib_read_ipv6route inet_pton empty_table r stack) = Some 0 /\
  fst (netlib_read_ipv6route inet_pton target_only r stack) = Some (- EINVAL).
Proof.
  split.
  - intros s H.
    rewrite read_target_line_run, read_netmask_line_run, read_router_line_run.
    destruct (fgets (line s) PROCFS_LINELEN (stream s)) as [[buf|] f'];
      [discriminate H|]. repeat split.
  - rewrite !netlib_read_ipv6route_run. split; reflexivity.
Qed.

(** C5.  The header comment (lines 100-103) keeps zero for the end of the
    file and promises a negated errno value on any failure.  The code
    does not tell the two apart: when the read of a line fails, through a
    read error as much as at the end of the file, the call returns 0 and
    leaves the record alone; so do the second and the third stage. *)
Theorem failed_read_returns_zero
    (f : FILE) (r : netlib_ipv6_route_s) (stack : list Z) :
  fst (fgets stack PROCFS_LINELEN f) = None ->
  netlib_read_ipv6route inet_pton f r stack
    = (Some 0, mk_machine (skip_line PROCFS_LINELEN f) r stack [CallFgets]) /\
  (forall rd, fst (read_netmask_line inet_pton (mk_machine f rd stack [])) = Return 0) /\
  (forall rd, fst (read_router_line inet_pton (mk_machine f rd stack [])) = Return 0).
Proof.
  intros H. rewrite netlib_read_ipv6route_run.
  split; [|split; intros rd].
  - rewrite <- fgets_stream with (buf := stack).
    destruct (fgets stack PROCFS_LINELEN f) as [[buf|] f']; [discriminate H|].
    reflexivity.
  - rewrite read_netmask_line_run. cbn [line stream].
    destruct (fgets stack PROCFS_LINELEN f) as [[buf|] f']; [discriminate H|].
    reflexivity.
  - rewrite read_router_line_run. cbn [line stream].
    destruct (fgets stack PROCFS_LINELEN f) as [[buf|] f']; [discriminate H|].
    reflexivity.
Qed.

(** C6.  In the second and in the third stage, a line whose first
    character is not a space makes the stage return -EINVAL in the state
    right after the read: the line is not cut, the record is not written
    and [inet_pton] is not called.  A line whose first character is a
    space goes on to the conversion. *)
Theorem continuation_marker_check
    (s : machine) (buf : list Z) (f' : FILE) (c : Z) :
  fgets (line s) PROCFS_LINELEN (stream s) = (Some buf, f') ->
  buf !! 0%nat = Some c ->
  (c <> ch " " ->
     read_netmask_line inet_pton s = (Return (- EINVAL), after_fgets s buf f') /\
     read_router_line inet_pton s = (Return (- EINVAL), after_fgets s buf f')) /\
  (c = ch " " ->
     read_netmask_line inet_pton s
       = convert_address inet_pton Netmask (after_fgets s buf f') /\
     read_router_line inet_pton s
       = convert_address inet_pton Router (after_fgets s buf f')).
Proof.
  intros Hread Hc.
  rewrite read_netmask_line_run, read_router_line_run, Hread, Hc.
  split; intros H.
  - destruct (Z.eqb_spec c (ch " ")); [contradiction|]. split; reflexivity.
  - destruct (Z.eqb_spec c (ch " ")); [|contradiction]. split; reflexivity.
Qed.

(** C7.  In each stage the text [src] cut from the line at ADDR_OFFSET goes
    to [inet_pton] together with the member of the stage.  When
    [inet_pton] returns 0 the stage returns -EINVAL; when it returns a
    positive value the stage goes on, and the member holds the address
    [inet_pton] produced while the other two members are as before. *)
Theorem conversion_outcome (fld : field) (s : machine) :
  length (line s) = PROCFS_LINELEN ->
  exists (src : list Z) (ret : Z) (dst : in6_addr),
    let s' := snd (convert_address inet_pton fld s) in
    c_string (drop ADDR_OFFSET (line s')) = Some src /\
    calls s' = calls s ++ [CallInetPton src] /\
    inet_pton src (get_field fld (route s)) = (ret, dst) /\
    (ret = 0 -> fst (convert_address inet_pton fld s) = Return (- EINVAL)) /\
    (0 < ret ->
       fst (convert_address inet_pton fld s) = Next tt /\
       get_field fld (route s') = dst /\
       forall other, other <> fld ->
         get_field other (route s') = get_field other (route s)).
Proof.
  intros Hlen.
  destruct (convert_address_run inet_pton fld s Hlen) as (n & Hn & Hle & Hrun).
  cbv zeta in Hn, Hle, Hrun.
  set (capped := <[(PROCFS_LINELEN - 1)%nat := NUL]> (line s)) in *.
  set (src := take n (drop ADDR_OFFSET capped)) in *.
  exists src, (fst (inet_pton src (get_field fld (route s)))),
         (snd (inet_pton src (get_field fld (route s)))).
  cbv zeta. rewrite Hrun. cbn [fst snd line calls route].
  split.
  { rewrite drop_insert_ge by lia.
    replace (ADDR_OFFSET + n - ADDR_OFFSET)%nat with n by lia.
    apply c_string_after_scan, Hn. }
  split; [reflexivity|]. split; [apply surjective_pairing|].
  split.
  - intros ->. reflexivity.
  - intros Hpos.
    destruct (Z.ltb_spec (fst (inet_pton src (get_field fld (route s)))) 0); [lia|].
    destruct (Z.eqb_spec (fst (inet_pton src (get_field fld (route s)))) 0); [lia|].
    split; [reflexivity|]. split.
    + destruct fld; reflexivity.
    + intros other Hne. destruct fld, other; try reflexivity; contradiction.
Qed.

End Claims.

(** ** The claims at the sample data *)

Lemma digit_opened_line_is_rejected_witness :
  ch "0" <= ch "1" <= ch "9" /\
  fst (netlib_read_ipv6route inet_pton_text one_entry blank_route stale_stack)
    = Some (- EINVAL).
Proof.
  assert (Hdigit : ch "0" <= ch "1" <= ch "9") by (vm_compute; split; discriminate).
  split; [exact Hdigit|].
  destruct (digit_opened_line_is_rejected inet_pton_text one_entry blank_route
              stale_stack first_line_read
              (mk_file (text (netmask_line ++ router_line)) AtEof) (ch "1")
              eq_refl eq_refl Hdigit) as [_ ->].
  reflexivity.
Defined.

Lemma record_unchanged_without_success_witness :
  route (snd (netlib_read_ipv6route inet_pton_text one_entry blank_route stale_stack))
    = blank_route.
Proof.
  apply record_unchanged_without_success. vm_compute. discriminate.
Defined.

Lemma target_only_gives_error_witness :
  fst (read_netmask_line inet_pton_text
         (mk_machine empty_table blank_route first_line_read [])) = Return 0 /\
  fst (netlib_read_ipv6route inet_pton_text target_only blank_route stale_stack)
    = Some (- EINVAL).
Proof.
  destruct (target_only_gives_error inet_pton_text blank_route stale_stack)
    as (Hstage & _ & Hcut).
  split; [|exact Hcut].
  apply (Hstage (mk_machine empty_table blank_route first_line_read [])).
  reflexivity.
Defined.

(** C5, at the sample data.  A stream whose read fails with an error and
    an empty stream give the same returned value, 0: nothing in the
    outcome tells the read error from the end of the file. *)
Lemma read_error_same_as_end_of_file :
  ending failing_table = IoError /\
  fst (fgets stale_stack PROCFS_LINELEN failing_table) = None /\
  fst (netlib_read_ipv6route inet_pton_text failing_table blank_route stale_stack)
    = Some 0 /\
  fst (netlib_read_ipv6route inet_pton_text failing_table blank_route stale_stack)
    = fst (netlib_read_ipv6route inet_pton_text empty_table blank_route stale_stack).
Proof. repeat split. Qed.

Lemma failed_read_returns_zero_witness :
  fst (netlib_read_ipv6route inet_pton_text failing_table blank_route stale_stack)
    = Some 0.
Proof.
  destruct (failed_read_returns_zero inet_pton_text failing_table blank_route
              stale_stack eq_refl) as [-> _].
  reflexivity.
Defined.

Lemma continuation_marker_check_witness :
  ch "1" <> ch " " /\
  fst (read_netmask_line inet_pton_text (mk_machine one_entry blank_route stale_stack []))
    = Return (- EINVAL).
Proof.
  assert (Hne : ch "1" <> ch " ") by (vm_compute; discriminate).
  split; [exact Hne|].
  destruct (continuation_marker_check inet_pton_text
              (mk_machine one_entry blank_route stale_stack [])
              first_line_read
              (mk_file (text (netmask_line ++ router_line)) AtEof) (ch "1")
              eq_refl eq_refl) as [Hbad _].
  destruct (Hbad Hne) as [-> _]. reflexivity.
Defined.

Lemma conversion_outcome_witness :
  length first_line_read = PROCFS_LINELEN /\
  exists (src : list Z) (ret : Z) (dst : in6_addr),
    inet_pton_text src (prefix blank_route) = (ret, dst) /\
    calls (snd (convert_address inet_pton_text Prefix
                  (mk_machine empty_table blank_route first_line_read [])))
      = [CallInetPton src].
Proof.
  split; [reflexivity|].
  destruct (conversion_outcome inet_pton_text Prefix
              (mk_machine empty_table blank_route first_line_read []) eq_refl)
    as (src & ret & dst & _ & Hcalls & Hconv & _).
  exists src, ret, dst. split; [exact Hconv|exact Hcalls].
Defined.

Lemma entry_converted_past_index_test_witness :
  exists (buf : list Z) (f1 : FILE) (s' : machine),
    fgets stale_stack PROCFS_LINELEN
      (mk_file (entry_line (text "1000. target:  ") (text "2001:db8::")
                  ++ entry_line (text "      netmask: ") (text "ffff:ffff:ffff:ffff::")
                  ++ entry_line (text "      router:  ") (text "fe80::1") ++ [])
               AtEof) = (Some buf, f1) /\
    rest_of_entry inet_pton_text (mk_machine f1 blank_route buf [CallFgets])
      = (Return sizeof_route, s') /\
    route s' = mk_route [32; 1; 13; 184; 0; 0; 0; 0; 0; 0; 0; 0; 0; 0; 0; 0]
                        [255; 255; 255; 255; 255; 255; 255; 255; 0; 0; 0; 0; 0; 0; 0; 0]
                        [254; 128; 0; 0; 0; 0; 0; 0; 0; 0; 0; 0; 0; 0; 0; 1] /\
    stream s' = empty_table.
Proof.
  apply (entry_converted_past_index_test inet_pton_text
           (text "1000. target:  ") (text "2001:db8::")
           (text "      netmask: ") (text "ffff:ffff:ffff:ffff::")
           (text "      router:  ") (text "fe80::1") [] AtEof
           blank_route stale_stack); reflexivity.
Defined.

(** X3.  Whatever the stream holds, a call reads one line, converts
    nothing and returns 0 or -EINVAL: it never returns the size of the
    record. *)
Theorem no_call_returns_success
    (inet_pton : list Z -> in6_addr -> Z * in6_addr)
    (f : FILE) (r : netlib_ipv6_route_s) (stack : list Z) :
  let out := netlib_read_ipv6route inet_pton f r stack in
  (fst out = Some 0 \/ fst out = Some (- EINVAL)) /\
  fst out <> Some sizeof_route /\
  fgets_calls (calls (snd out)) = 1%nat /\
  inet_pton_calls (calls (snd out)) = 0%nat.
Proof.
  cbv zeta. rewrite netlib_read_ipv6route_run.
  destruct (fgets stack PROCFS_LINELEN f) as [[buf|] f']; cbn [fst snd calls];
    repeat split; solve [now left | now right | discriminate].
Qed.

(** ** More on the scan *)

Lemma scan_address_none (s : list Z) :
  scan_address s = None <-> forallb is_addr_char s = true.
Proof.
  induction s as [|c s IH]; simpl; [tauto|].
  destruct (is_addr_char c); simpl.
  - rewrite <- IH. destruct (scan_address s); simpl; split; congruence.
  - split; discriminate.
Qed.

(** X4.  [set_nul_terminator] has no defined behaviour exactly when every
    character from the start offset to the end of the buffer is a
    hexadecimal digit or a colon (in particular when the offset is at or
    past the end): the loop then leaves the buffer.  In every other case
    it returns a buffer of the same length. *)
Theorem set_nul_terminator_leaves_buffer (buf : list Z) (off : nat) :
  (set_nul_terminator buf off = None <->
   forall j c, (off <= j)%nat -> buf !! j = Some c -> address_character c) /\
  (forall buf', set_nul_terminator buf off = Some buf' ->
     length buf' = length buf).
Proof.
  split.
  - unfold set_nul_terminator.
    assert (Hnone : scan_address (drop off buf) = None <->
                    forall j c, (off <= j)%nat -> buf !! j = Some c ->
                                address_character c).
    { rewrite scan_address_none. split.
      - intros Hall j c Hj Hc. apply is_addr_char_spec.
        assert (Hd : drop off buf !! (j - off)%nat = Some c).
        { rewrite lookup_drop. replace (off + (j - off))%nat with j by lia.
          exact Hc. }
        clear Hc Hj. revert Hd Hall. generalize (j - off)%nat as i.
        generalize (drop off buf) as s. clear.
        induction s as [|d s IH]; intros i Hd Hall; [discriminate|].
        simpl in Hall. apply andb_true_iff in Hall as [H1 H2].
        destruct i as [|i]; simpl in Hd; [congruence|]. eapply IH; eauto.
      - intros Hall.
        assert (Hs : forall i c, drop off buf !! i = Some c ->
                                 is_addr_char c = true).
        { intros i c Hi. rewrite lookup_drop in Hi.
          apply is_addr_char_spec, (Hall (off + i)%nat); [lia|exact Hi]. }
        revert Hs. generalize (drop off buf) as s. clear.
        induction s as [|d s IH]; intros Hs; [reflexivity|]. simpl.
        rewrite (Hs 0%nat d eq_refl). apply (IH (fun i c H => Hs (S i) c H)). }
    rewrite <- Hnone.
    destruct (scan_address (drop off buf)); simpl; split; congruence.
  - intros buf' H. unfold set_nul_terminator in H.
    destruct (scan_address (drop off buf)); simpl in H; [|discriminate].
    injection H as <-. apply length_insert.
Qed.

Lemma scan_address_again (s : list Z) (n : nat) :
  scan_address s = Some n -> scan_address (<[n := NUL]> s) = Some n.
Proof.
  revert n. induction s as [|c s IH]; intros n H; simpl in H; [discriminate|].
  destruct (is_addr_char c) eqn:Ec.
  - destruct (scan_address s) as [m|] eqn:Es; simpl in H; [|discriminate].
    injection H as <-. simpl. rewrite Ec, (IH m eq_refl). reflexivity.
  - injection H as <-. reflexivity.
Qed.

(** X5.  Cutting twice is cutting once: a second [set_nul_terminator] at
    the same offset stops at the terminator the first one wrote and leaves
    the buffer as it is. *)
Theorem set_nul_terminator_idempotent (buf buf' : list Z) (off : nat) :
  set_nul_terminator buf off = Some buf' ->
  set_nul_terminator buf' off = Some buf'.
Proof.
  unfold set_nul_terminator. intros H.
  destruct (scan_address (drop off buf)) as [n|] eqn:Hn; simpl in H;
    [|discriminate].
  injection H as <-.
  rewrite drop_insert_ge by lia.
  replace (off + n - off)%nat with n by lia.
  rewrite (scan_address_again _ _ Hn). simpl.
  rewrite list_insert_insert_eq. reflexivity.
Qed.

Lemma set_nul_terminator_idempotent_witness :
  set_nul_terminator first_line_read ADDR_OFFSET
    = Some (<[25%nat := NUL]> first_line_read) /\
  set_nul_terminator (<[25%nat := NUL]> first_line_read) ADDR_OFFSET
    = Some (<[25%nat := NUL]> first_line_read).
Proof.
  split; [reflexivity|].
  apply (set_nul_terminator_idempotent first_line_read). reflexivity.
Defined.

(** ** The stages from any state *)

Lemma scan_address_take (s : list Z) (n : nat) :
  scan_address s = Some n ->
  forallb is_addr_char (take n s) = true /\ length (take n s) = n.
Proof.
  revert n. induction s as [|c s IH]; intros n H; simpl in H; [discriminate|].
  destruct (is_addr_char c) eqn:Ec.
  - destruct (scan_address s) as [m|] eqn:Es; simpl in H; [|discriminate].
    injection H as <-. destruct (IH m eq_refl) as [Hall Hlen].
    simpl. rewrite Ec, Hall, Hlen. split; reflexivity.
  - injection H as <-. split; reflexivity.
Qed.

Section AnyState.

Variable inet_pton : list Z -> in6_addr -> Z * in6_addr.

(** The conversion block on a 58-byte line, with the text it converts. *)
Lemma convert_address_cases (fld : field) (s : machine) :
  length (line s) = PROCFS_LINELEN ->
  exists (src buf : list Z),
    length buf = PROCFS_LINELEN /\
    forallb is_addr_char src = true /\
    (length src <= PROCFS_LINELEN - 1 - ADDR_OFFSET)%nat /\
    convert_address inet_pton fld s =
      (if fst (inet_pton src (get_field fld (route s))) <? 0
       then Return (fst (inet_pton src (get_field fld (route s))))
       else if fst (inet_pton src (get_field fld (route s))) =? 0
            then Return (- EINVAL)
            else Next tt,
       mk_machine (stream s)
         (set_field fld (snd (inet_pton src (get_field fld (route s)))) (route s))
         buf (calls s ++ [CallInetPton src])).
Proof.
  intros Hlen.
  destruct (convert_address_run inet_pton fld s Hlen) as (n & Hn & Hle & Hrun).
  cbv zeta in Hn, Hle, Hrun.
  destruct (scan_address_take _ _ Hn) as [Hall Hsrc].
  eexists _, _. split; [|split; [exact Hall|split; [|exact Hrun]]].
  - rewrite !length_insert. exact Hlen.
  - rewrite Hsrc. lia.
Qed.

Lemma read_stage_run (fld : field) (s : machine) :
  fld <> Prefix ->
  read_stage inet_pton fld s =
  match fgets (line s) PROCFS_LINELEN (stream s) with
  | (Some buf, f') =>
      match buf !! 0%nat with
      | Some c =>
          if c =? ch " " then convert_address inet_pton fld (after_fgets s buf f')
          else (Return (- EINVAL), after_fgets s buf f')
      | None => (Undefined, after_fgets s buf f')
      end
  | (None, f') => (Return 0, after_fgets s (line s) f')
  end.
Proof.
  destruct fld; [congruence| |]; intros _; cbn [read_stage].
  - apply read_netmask_line_run.
  - apply read_router_line_run.
Qed.

(** What a continuation stage can do on a 58-byte line. *)
Lemma read_stage_cases (fld : field) (s : machine) :
  fld <> Prefix ->
  length (line s) = PROCFS_LINELEN ->
  let f' := skip_line PROCFS_LINELEN (stream s) in
  (fst (fgets (line s) PROCFS_LINELEN (stream s)) = None /\
   read_stage inet_pton fld s = (Return 0, after_fgets s (line s) f')) \/
  (exists buf c,
     fgets (line s) PROCFS_LINELEN (stream s) = (Some buf, f') /\
     length buf = PROCFS_LINELEN /\ buf !! 0%nat = Some c /\
     ((c <> ch " " /\
       read_stage inet_pton fld s = (Return (- EINVAL), after_fgets s buf f')) \/
      (c = ch " " /\
       read_stage inet_pton fld s
         = convert_address inet_pton fld (after_fgets s buf f')))).
Proof.
  intros Hfld Hlen. cbv zeta. rewrite (read_stage_run fld s Hfld).
  pose proof (fgets_stream (line s) PROCFS_LINELEN (stream s)) as Hs.
  destruct (fgets (line s) PROCFS_LINELEN (stream s)) as [[buf|] f'] eqn:E;
    cbn [snd] in Hs; subst f'.
  - right. destruct (fgets_first _ _ _ _ _ E) as [c Hc].
    exists buf, c. split; [reflexivity|]. split.
    { eapply fgets_length; [exact E|exact Hlen|unfold PROCFS_LINELEN; lia]. }
    split; [exact Hc|]. rewrite Hc.
    destruct (Z.eqb_spec c (ch " ")); [right|left]; split;
      solve [assumption | reflexivity].
  - left. split; reflexivity.
Qed.

(** Either the stage goes on, having read a line and converted a text with
    a positive result, or it returns a value that is not positive. *)
Lemma convert_address_ok (fld : field) (s : machine) :
  length (line s) = PROCFS_LINELEN ->
  length (line (snd (convert_address inet_pton fld s))) = PROCFS_LINELEN /\
  ((exists v, fst (convert_address inet_pton fld s) = Return v /\ v < 0) \/
   (exists src buf,
      0 < fst (inet_pton src (get_field fld (route s))) /\
      convert_address inet_pton fld s =
        (Next tt,
         mk_machine (stream s)
           (set_field fld (snd (inet_pton src (get_field fld (route s)))) (route s))
           buf (calls s ++ [CallInetPton src])))).
Proof.
  intros Hlen.
  destruct (convert_address_cases fld s Hlen) as (src & buf & Hbuf & _ & _ & Hrun).
  rewrite Hrun. cbn [fst snd line]. split; [exact Hbuf|].
  destruct (Z.ltb_spec (fst (inet_pton src (get_field fld (route s)))) 0).
  - left. eauto.
  - destruct (Z.eqb_spec (fst (inet_pton src (get_field fld (route s)))) 0).
    + left. exists (- EINVAL). split; [reflexivity|unfold EINVAL; lia].
    + right. exists src, buf. split; [lia|reflexivity].
Qed.

Lemma read_stage_ok (fld : field) (s : machine) :
  fld <> Prefix ->
  length (line s) = PROCFS_LINELEN ->
  length (line (snd (read_stage inet_pton fld s))) = PROCFS_LINELEN /\
  ((exists v, fst (read_stage inet_pton fld s) = Return v /\ v <= 0) \/
   (exists src buf,
      0 < fst (inet_pton src (get_field fld (route s))) /\
      read_stage inet_pton fld s =
        (Next tt,
         mk_machine (skip_line PROCFS_LINELEN (stream s))
           (set_field fld (snd (inet_pton src (get_field fld (route s)))) (route s))
           buf (calls s ++ [CallFgets; CallInetPton src])))).
Proof.
  intros Hfld Hlen.
  destruct (read_stage_cases fld s Hfld Hlen)
    as [[_ ->] | (buf & c & _ & Hbuf & _ & [[_ ->] | [_ ->]])].
  - cbn [fst snd after_fgets line]. split; [exact Hlen|]. left. exists 0.
    split; [reflexivity|lia].
  - cbn [fst snd after_fgets line]. split; [exact Hbuf|]. left.
    exists (- EINVAL). split; [reflexivity|unfold EINVAL; lia].
  - destruct (convert_address_ok fld
                (after_fgets s buf (skip_line PROCFS_LINELEN (stream s))) Hbuf)
      as [Hl [(v & Hv & Hneg) | (src & b & Hpos & Hrun)]].
    + split; [exact Hl|]. left. exists v. split; [exact Hv|lia].
    + split; [exact Hl|]. right. exists src, b. split; [exact Hpos|].
      rewrite Hrun. unfold after_fgets. cbn [stream route calls].
      rewrite <- app_assoc. reflexivity.
Qed.

End AnyState.

Section StageProperties.

Variable inet_pton : list Z -> in6_addr -> Z * in6_addr.

(** X6.  Whatever a 58-byte line holds, the text a stage hands to
    [inet_pton] is made of hexadecimal digits and colons only, and is at
    most PROCFS_LINELEN - 1 - ADDR_OFFSET = 42 characters long; a dot, a
    space or a newline never reaches the conversion. *)
Theorem conversion_text_is_address_text (fld : field) (s : machine) :
  length (line s) = PROCFS_LINELEN ->
  exists src,
    calls (snd (convert_address inet_pton fld s)) = calls s ++ [CallInetPton src] /\
    Forall address_character src /\
    (length src <= PROCFS_LINELEN - 1 - ADDR_OFFSET)%nat.
Proof.
  intros Hlen.
  destruct (convert_address_cases inet_pton fld s Hlen)
    as (src & buf & _ & Hall & Hle & Hrun).
  exists src. rewrite Hrun. cbn [snd calls]. split; [reflexivity|].
  split; [|exact Hle].
  clear Hrun Hle. induction src as [|c src IH]; [constructor|].
  simpl in Hall. apply andb_true_iff in Hall as [Hc Hall].
  constructor; [now apply is_addr_char_spec|exact (IH Hall)].
Qed.

(** X9.  A negative value returned by [inet_pton] is returned by the stage
    as it is, not turned into -EINVAL; and whatever [inet_pton] returns,
    the member of the stage holds what [inet_pton] left in it: a failed
    conversion is not undone. *)
Theorem conversion_error_is_passed_on (fld : field) (s : machine) :
  length (line s) = PROCFS_LINELEN ->
  exists src,
    let ret := fst (inet_pton src (get_field fld (route s))) in
    let s' := snd (convert_address inet_pton fld s) in
    calls s' = calls s ++ [CallInetPton src] /\
    (ret < 0 -> fst (convert_address inet_pton fld s) = Return ret) /\
    get_field fld (route s') = snd (inet_pton src (get_field fld (route s))).
Proof.
  intros Hlen.
  destruct (convert_address_cases inet_pton fld s Hlen)
    as (src & buf & _ & _ & _ & Hrun).
  exists src. cbv zeta. rewrite Hrun. cbn [fst snd calls route].
  split; [reflexivity|]. split.
  - intros Hneg.
    destruct (Z.ltb_spec (fst (inet_pton src (get_field fld (route s)))) 0);
      [reflexivity|lia].
  - destruct fld; reflexivity.
Qed.

(** A conversion writes no member but its own, wherever it ends. *)
Lemma convert_address_route_frame (fld other : field) (s : machine) :
  other <> fld ->
  get_field other (route (snd (convert_address inet_pton fld s)))
    = get_field other (route s).
Proof.
  intros Hne. unfold convert_address, bind, store_line.
  destruct (decide (PROCFS_LINELEN - 1 < length (line s))%nat); [|reflexivity].
  unfold call_set_nul_terminator. cbn [line].
  destruct (set_nul_terminator _ ADDR_OFFSET) as [buf|]; [|reflexivity].
  unfold call_inet_pton. cbn [line route stream calls].
  destruct (c_string (drop ADDR_OFFSET buf)) as [src|]; [|reflexivity].
  destruct (inet_pton src _) as [ret dst]. unfold log, return_, next.
  cbn [line route stream calls].
  assert (E : get_field other (set_field fld dst (route s)) = get_field other (route s)).
  { destruct fld, other; try reflexivity; contradiction. }
  destruct (ret <? 0); [exact E|]. destruct (ret =? 0); exact E.
Qed.

(** X13.  A stage writes no member of the record but its own, however it
    ends: the first stage can only touch the prefix, the second only the
    netmask, the third only the router. *)
Theorem stage_writes_own_member_only (fld other : field) (s : machine) :
  other <> fld ->
  get_field other (route (snd (read_stage inet_pton fld s)))
    = get_field other (route s).
Proof.
  intros Hne. destruct fld.
  - cbn [read_stage]. rewrite read_target_line_run.
    destruct (fgets (line s) PROCFS_LINELEN (stream s)) as [[buf|] f'];
      reflexivity.
  - rewrite read_stage_run by discriminate.
    destruct (fgets (line s) PROCFS_LINELEN (stream s)) as [[buf|] f'];
      [|reflexivity].
    destruct (buf !! 0%nat) as [c|]; [|reflexivity].
    destruct (c =? ch " "); [|reflexivity].
    apply (convert_address_route_frame Netmask other (after_fgets s buf f') Hne).
  - rewrite read_stage_run by discriminate.
    destruct (fgets (line s) PROCFS_LINELEN (stream s)) as [[buf|] f'];
      [|reflexivity].
    destruct (buf !! 0%nat) as [c|]; [|reflexivity].
    destruct (c =? ch " "); [|reflexivity].
    apply (convert_address_route_frame Router other (after_fgets s buf f') Hne).
Qed.

(** The statements past the index test on a 58-byte line: they return a
    value that is not positive, or all three conversions succeed. *)
Lemma rest_of_entry_cases (s : machine) :
  length (line s) = PROCFS_LINELEN ->
  length (line (snd (rest_of_entry inet_pton s))) = PROCFS_LINELEN /\
  ((exists v, fst (rest_of_entry inet_pton s) = Return v /\ v <= 0) \/
   (exists src1 src2 src3 buf,
      0 < fst (inet_pton src1 (prefix (route s))) /\
      0 < fst (inet_pton src2 (netmask (route s))) /\
      0 < fst (inet_pton src3 (router (route s))) /\
      rest_of_entry inet_pton s =
        (Return sizeof_route,
         mk_machine (skip_lines PROCFS_LINELEN 2 (stream s))
           (mk_route (snd (inet_pton src1 (prefix (route s))))
                     (snd (inet_pton src2 (netmask (route s))))
                     (snd (inet_pton src3 (router (route s)))))
           buf
           (calls s ++ [CallInetPton src1; CallFgets; CallInetPton src2;
                        CallFgets; CallInetPton src3])))).
Proof.
  intros Hlen. unfold rest_of_entry, bind.
  change (read_netmask_line inet_pton) with (read_stage inet_pton Netmask).
  change (read_router_line inet_pton) with (read_stage inet_pton Router).
  destruct (convert_address_ok inet_pton Prefix s Hlen)
    as [Hl1 [(v & Hv & Hneg) | (src1 & b1 & Hp1 & Hrun1)]].
  { destruct (convert_address inet_pton Prefix s) as [o1 s1].
    cbn [fst snd] in *. subst o1. cbn [fst snd]. split; [exact Hl1|].
    left. exists v. split; [reflexivity|lia]. }
  rewrite Hrun1 in Hl1 |- *. cbn [snd line] in Hl1.
  set (s1 := mk_machine _ _ b1 _).
  destruct (read_stage_ok inet_pton Netmask s1 ltac:(discriminate) Hl1)
    as [Hl2 [(v & Hv & Hneg) | (src2 & b2 & Hp2 & Hrun2)]].
  { destruct (read_stage inet_pton Netmask s1) as [o2 s2].
    cbn [fst snd] in *. subst o2. cbn [fst snd]. split; [exact Hl2|].
    left. exists v. split; [reflexivity|exact Hneg]. }
  rewrite Hrun2 in Hl2 |- *. cbn [snd line] in Hl2.
  set (s2 := mk_machine _ _ b2 _).
  destruct (read_stage_ok inet_pton Router s2 ltac:(discriminate) Hl2)
    as [Hl3 [(v & Hv & Hneg) | (src3 & b3 & Hp3 & Hrun3)]].
  { destruct (read_stage inet_pton Router s2) as [o3 s3].
    cbn [fst snd] in *. subst o3. cbn [fst snd]. split; [exact Hl3|].
    left. exists v. split; [reflexivity|exact Hneg]. }
  rewrite Hrun3 in Hl3 |- *. cbn [snd line] in Hl3.
  unfold return_. cbn [fst snd line]. split; [exact Hl3|].
  right. exists src1, src2, src3, b3.
  subst s1 s2. cbn [stream route calls get_field set_field prefix netmask router]
    in *.
  split; [exact Hp1|]. split; [exact Hp2|]. split; [exact Hp3|].
  rewrite <- !app_assoc. reflexivity.
Qed.

(** X7.  Started on a 58-byte line, the statements past the index test
    never read or write outside the line buffer, whatever the stream
    delivers and whatever [inet_pton] does: they end in a [return], the
    buffer is still 58 bytes long, and the value returned is the size of
    the record, zero or negative. *)
Theorem body_stays_inside_line (s : machine) :
  length (line s) = PROCFS_LINELEN ->
  length (line (snd (rest_of_entry inet_pton s))) = PROCFS_LINELEN /\
  exists v, fst (rest_of_entry inet_pton s) = Return v /\
            (v = sizeof_route \/ v <= 0).
Proof.
  intros Hlen.
  destruct (rest_of_entry_cases s Hlen)
    as [Hl [(v & Hv & Hle) | (s1 & s2 & s3 & b & _ & _ & _ & Hrun)]].
  - split; [exact Hl|]. exists v. split; [exact Hv|now right].
  - split; [exact Hl|]. exists sizeof_route. rewrite Hrun.
    split; [reflexivity|now left].
Qed.


End StageProperties.

(** ** What one call takes off the stream *)

Lemma read_line_prefix (n : nat) (s : list Z) :
  fst (read_line n s) = take (length (fst (read_line n s))) s.
Proof.
  revert s. induction n as [|n IH]; intros s; [reflexivity|].
  destruct s as [|c s]; [reflexivity|]. simpl.
  destruct (c =? newline); [reflexivity|].
  specialize (IH s). destruct (read_line n s) as [l why]. simpl in *.
  congruence.
Qed.

Lemma read_line_newline_last (n : nat) (s : list Z) (i : nat) :
  (S i < length (fst (read_line n s)))%nat -> s !! i <> Some newline.
Proof.
  revert s i. induction n as [|n IH]; intros s i; [simpl; lia|].
  destruct s as [|c s]; [simpl; lia|]. simpl.
  destruct (Z.eqb_spec c newline) as [->|Hc]; [simpl; lia|].
  specialize (IH s). destruct (read_line n s) as [l why]. simpl in *.
  intros Hi. destruct i as [|i]; simpl; [congruence|]. apply IH. lia.
Qed.

Lemma read_line_drained (n : nat) (s : list Z) :
  snd (read_line n s) = Drained <->
  (length s < n)%nat /\ Forall (fun c => c <> newline) s.
Proof.
  revert s. induction n as [|n IH]; intros s.
  - simpl. split; [discriminate|lia].
  - destruct s as [|c s]; simpl.
    + split; [intros _; split; [lia|constructor]|reflexivity].
    + destruct (Z.eqb_spec c newline) as [->|Hc]; simpl.
      * split; [discriminate|]. intros [_ H]. inversion H; congruence.
      * specialize (IH s). destruct (read_line n s) as [l why]. simpl in *.
        rewrite IH. split.
        -- intros [Hl Hall]. split; [lia|constructor; assumption].
        -- intros [Hl Hall]. inversion Hall; subst. split; [lia|assumption].
Qed.

Lemma read_line_drained_all (n : nat) (s : list Z) :
  snd (read_line n s) = Drained -> fst (read_line n s) = s.
Proof.
  revert s. induction n as [|n IH]; intros s; [discriminate|].
  destruct s as [|c s]; [reflexivity|]. simpl.
  destruct (c =? newline); [discriminate|].
  specialize (IH s). destruct (read_line n s) as [l why]. simpl in *.
  intros H. rewrite (IH H). reflexivity.
Qed.

(** When a line read comes back empty-handed: nothing but an unfinished
    line is left, and either it is cut short by a read error or there is
    nothing left at all. *)
Lemma fgets_fails (buf : list Z) (size : nat) (f : FILE) :
  fst (fgets buf size f) = None <->
  (length (unread f) < size - 1)%nat /\
  Forall (fun c => c <> newline) (unread f) /\
  (ending f = IoError \/ unread f = []).
Proof.
  unfold fgets.
  pose proof (read_line_drained (size - 1) (unread f)) as Hd.
  pose proof (read_line_drained_all (size - 1) (unread f)) as Ha.
  destruct (read_line (size - 1) (unread f)) as [got why]. simpl in Hd, Ha.
  destruct why.
  - simpl. split; [discriminate|]. intros (H1 & H2 & _).
    assert (Newline = Drained) by (apply Hd; auto). discriminate.
  - simpl. split; [discriminate|]. intros (H1 & H2 & _).
    assert (Full = Drained) by (apply Hd; auto). discriminate.
  - specialize (Ha eq_refl). subst got.
    destruct (proj1 Hd eq_refl) as [H1 H2].
    destruct (ending f) eqn:He, (unread f) as [|c s] eqn:Hu; simpl; split;
      try discriminate; try (intros _; repeat split; auto; fail).
    intros (_ & _ & [H|H]); discriminate.
Qed.

Section WholeCall.

Variable inet_pton : list Z -> in6_addr -> Z * in6_addr.

(** X11.  One call takes at most PROCFS_LINELEN - 1 = 57 characters off
    the stream, all from its front, and none behind the first newline; the
    rest of the stream, and the way it ends, are left for the next call. *)
Theorem call_takes_one_line_at_most
    (f : FILE) (r : netlib_ipv6_route_s) (stack : list Z) :
  exists n : nat,
    (n <= PROCFS_LINELEN - 1)%nat /\ (n <= length (unread f))%nat /\
    stream (snd (netlib_read_ipv6route inet_pton f r stack))
      = mk_file (drop n (unread f)) (ending f) /\
    (forall i, (S i < n)%nat -> unread f !! i <> Some newline).
Proof.
  exists (length (fst (read_line (PROCFS_LINELEN - 1) (unread f)))).
  split; [apply read_line_length|]. split.
  { rewrite (read_line_prefix (PROCFS_LINELEN - 1) (unread f)) at 1.
    rewrite length_take. lia. }
  split.
  - rewrite netlib_read_ipv6route_run.
    pose proof (fgets_stream stack PROCFS_LINELEN f) as Hs.
    destruct (fgets stack PROCFS_LINELEN f) as [[buf|] f'];
      cbn [snd] in Hs; subst f'; reflexivity.
  - intros i. apply read_line_newline_last.
Qed.

End WholeCall.

Section StaleText.

Variable inet_pton : list Z -> in6_addr -> Z * in6_addr.

(** A conversion looks at the line from ADDR_OFFSET on and at nothing in
    front of it. *)
Lemma convert_address_same_text (fld : field) (s1 s2 : machine) :
  length (line s1) = PROCFS_LINELEN ->
  length (line s2) = PROCFS_LINELEN ->
  drop ADDR_OFFSET (line s1) = drop ADDR_OFFSET (line s2) ->
  route s1 = route s2 ->
  fst (convert_address inet_pton fld s1) = fst (convert_address inet_pton fld s2) /\
  route (snd (convert_address inet_pton fld s1))
    = route (snd (convert_address inet_pton fld s2)) /\
  exists src,
    calls (snd (convert_address inet_pton fld s1)) = calls s1 ++ [CallInetPton src] /\
    calls (snd (convert_address inet_pton fld s2)) = calls s2 ++ [CallInetPton src].
Proof.
  intros H1 H2 Hdrop Hroute.
  destruct (convert_address_run inet_pton fld s1 H1) as (n1 & Hn1 & _ & Hrun1).
  destruct (convert_address_run inet_pton fld s2 H2) as (n2 & Hn2 & _ & Hrun2).
  cbv zeta in *.
  assert (Hcap : drop ADDR_OFFSET (<[(PROCFS_LINELEN - 1)%nat := NUL]> (line s1))
                 = drop ADDR_OFFSET (<[(PROCFS_LINELEN - 1)%nat := NUL]> (line s2))).
  { rewrite !drop_insert_ge by (unfold PROCFS_LINELEN, ADDR_OFFSET; lia).
    rewrite Hdrop. reflexivity. }
  rewrite Hcap in Hn1, Hrun1. rewrite Hn1 in Hn2. injection Hn2 as <-.
  rewrite Hroute in Hrun1. rewrite Hrun1, Hrun2. cbn [fst snd route calls].
  split; [reflexivity|]. split; [reflexivity|].
  eexists. split; reflexivity.
Qed.

(** X10.  A continuation line that opens with a space but ends before
    column ADDR_OFFSET is not rejected.  The read leaves the buffer from
    column ADDR_OFFSET on as it was, so the stage converts the text that
    was there before the read, what the previous line left behind, and
    returns and writes what a conversion without the read would. *)
Theorem short_line_converts_stale_text
    (fld : field) (s : machine) (short rest : list Z) (e : stream_end) :
  fld <> Prefix ->
  length (line s) = PROCFS_LINELEN ->
  stream s = mk_file (short ++ newline :: rest) e ->
  forallb (fun c => negb (c =? newline)) short = true ->
  short !! 0%nat = Some (ch " ") ->
  (length short + 2 <= ADDR_OFFSET)%nat ->
  fst (read_stage inet_pton fld s) = fst (convert_address inet_pton fld s) /\
  route (snd (read_stage inet_pton fld s))
    = route (snd (convert_address inet_pton fld s)) /\
  stream (snd (read_stage inet_pton fld s)) = mk_file rest e /\
  exists src,
    calls (snd (read_stage inet_pton fld s))
      = calls s ++ [CallFgets; CallInetPton src] /\
    calls (snd (convert_address inet_pton fld s)) = calls s ++ [CallInetPton src].
Proof.
  intros Hfld Hlen Hstream Hnl Hsp Hshort.
  assert (Hread : fgets (line s) PROCFS_LINELEN (stream s)
            = (Some ((short ++ [newline])
                       ++ NUL :: drop (S (length (short ++ [newline]))) (line s)),
               mk_file rest e)).
  { unfold fgets. rewrite Hstream. cbn [unread ending].
    rewrite (read_line_whole _ short rest Hnl)
      by (unfold PROCFS_LINELEN, ADDR_OFFSET in *; lia).
    replace (short ++ newline :: rest) with ((short ++ [newline]) ++ rest)
      by (rewrite <- app_assoc; reflexivity).
    rewrite drop_app_length. destruct e; reflexivity. }
  set (buf := (short ++ [newline])
                ++ NUL :: drop (S (length (short ++ [newline]))) (line s)) in *.
  assert (Hbuf : length buf = PROCFS_LINELEN).
  { eapply fgets_length; [exact Hread|exact Hlen|unfold PROCFS_LINELEN; lia]. }
  assert (Htail : drop ADDR_OFFSET buf = drop ADDR_OFFSET (line s)).
  { unfold buf. rewrite length_app. cbn [length].
    rewrite drop_app_ge by (rewrite length_app; cbn [length]; lia).
    rewrite length_app. cbn [length].
    replace (ADDR_OFFSET - (length short + 1))%nat
      with (S (ADDR_OFFSET - (length short + 1) - 1)) by lia.
    cbn [drop]. rewrite drop_drop. f_equal. lia. }
  assert (Hfirst : buf !! 0%nat = Some (ch " ")).
  { unfold buf. destruct short; [discriminate Hsp|exact Hsp]. }
  rewrite (read_stage_run inet_pton fld s Hfld), Hread, Hfirst, Z.eqb_refl.
  destruct (convert_address_same_text fld
              (after_fgets s buf (mk_file rest e)) s Hbuf Hlen Htail eq_refl)
    as (Hout & Hroute & src & Hc1 & Hc2).
  split; [exact Hout|]. split; [exact Hroute|]. split.
  - destruct (convert_address_frame inet_pton fld
                (after_fgets s buf (mk_file rest e))) as [-> _].
    reflexivity.
  - exists src. split; [|exact Hc2].
    rewrite Hc1. unfold after_fgets. cbn [calls].
    rewrite <- app_assoc. reflexivity.
Qed.

(** The second and the third stage leave the prefix alone. *)
Lemma read_continuation_keeps_prefix (fld : field) (s : machine) :
  fld <> Prefix ->
  prefix (route (snd (read_stage inet_pton fld s))) = prefix (route s).
Proof.
  intros Hfld. rewrite (read_stage_run inet_pton fld s Hfld).
  destruct (fgets (line s) PROCFS_LINELEN (stream s)) as [[buf|] f'];
    [|reflexivity].
  destruct (buf !! 0%nat) as [c|]; [|reflexivity].
  destruct (c =? ch " "); [|reflexivity].
  apply (convert_address_route_frame inet_pton fld Prefix
           (after_fgets s buf f')).
  congruence.
Qed.

(** X2.  The statements past the index test write each converted address
    straight into the caller's record.  Once the first line of a laid-out
    group has been converted, the prefix member holds the new address
    however the rest of the call ends; when nothing is left on the stream
    the call returns 0 with that prefix and with the old netmask and
    router: a partly filled record. *)
Theorem record_written_before_failure
    (s : machine) (lead tok tail : list Z) :
  laid_out lead tok = true ->
  line s = lead ++ tok ++ newline :: tail ->
  length (line s) = PROCFS_LINELEN ->
  0 < fst (inet_pton tok (prefix (route s))) ->
  let s' := snd (rest_of_entry inet_pton s) in
  prefix (route s') = snd (inet_pton tok (prefix (route s))) /\
  (unread (stream s) = [] ->
     fst (rest_of_entry inet_pton s) = Return 0 /\
     netmask (route s') = netmask (route s) /\
     router (route s') = router (route s)).
Proof.
  intros Hlay Hline Hlen Hpos. cbv zeta.
  destruct (convert_address_entry_line inet_pton Prefix s lead tok tail
              Hlay Hline Hlen Hpos) as (buf & Hconv & Hbuf).
  cbn [get_field set_field] in Hconv.
  unfold rest_of_entry, bind. rewrite Hconv.
  change (read_netmask_line inet_pton) with (read_stage inet_pton Netmask).
  change (read_router_line inet_pton) with (read_stage inet_pton Router).
  set (s1 := mk_machine (stream s) _ buf _).
  split.
  - pose proof (read_continuation_keeps_prefix Netmask s1 ltac:(discriminate)) as H2.
    destruct (read_stage inet_pton Netmask s1) as [[[]|v|] s2]; cbn [snd] in *;
      try exact H2.
    pose proof (read_continuation_keeps_prefix Router s2 ltac:(discriminate)) as H3.
    destruct (read_stage inet_pton Router s2) as [[[]|v|] s3]; cbn [snd] in *;
      unfold return_; cbn [snd]; rewrite H3; exact H2.
  - intros Hempty.
    assert (Hfail : fst (fgets (line s1) PROCFS_LINELEN (stream s1)) = None).
    { apply fgets_fails. cbn [s1 stream]. rewrite Hempty.
      split; [unfold PROCFS_LINELEN; simpl; lia|]. split; [constructor|].
      now right. }
    rewrite (read_stage_run inet_pton Netmask s1) by discriminate.
    destruct (fgets (line s1) PROCFS_LINELEN (stream s1)) as [[b|] f'];
      [discriminate Hfail|].
    cbn [fst snd after_fgets route s1 netmask router]. repeat split.
Qed.

End StaleText.

(** ** The further properties at the sample data *)

Lemma conversion_text_is_address_text_witness :
  exists src,
    calls (snd (convert_address inet_pton_text Prefix target_line_read))
      = [CallFgets; CallInetPton src] /\
    Forall address_character src /\
    (length src <= PROCFS_LINELEN - 1 - ADDR_OFFSET)%nat.
Proof.
  exact (conversion_text_is_address_text inet_pton_text Prefix
           target_line_read eq_refl).
Defined.

Lemma conversion_error_is_passed_on_witness :
  exists src,
    calls (snd (convert_address inet_pton_refusing Netmask target_line_read))
      = [CallFgets; CallInetPton src] /\
    fst (convert_address inet_pton_refusing Netmask target_line_read) = Return (-1).
Proof.
  destruct (conversion_error_is_passed_on inet_pton_refusing Netmask
              target_line_read eq_refl) as (src & Hcalls & Hret & _).
  exists src. split; [exact Hcalls|]. apply Hret. reflexivity.
Defined.

Lemma stage_writes_own_member_only_witness :
  get_field Prefix (route (snd (read_stage inet_pton_text Netmask entry_under_way)))
    = get_field Prefix (route entry_under_way).
Proof.
  apply stage_writes_own_member_only. discriminate.
Defined.

Lemma body_stays_inside_line_witness :
  length (line (snd (rest_of_entry inet_pton_text entry_under_way)))
    = PROCFS_LINELEN /\
  exists v, fst (rest_of_entry inet_pton_text entry_under_way) = Return v /\
            (v = sizeof_route \/ v <= 0).
Proof.
  exact (body_stays_inside_line inet_pton_text entry_under_way eq_refl).
Defined.


Lemma short_line_converts_stale_text_witness :
  fst (read_stage inet_pton_text Netmask before_short_line) = Next tt /\
  route (snd (read_stage inet_pton_text Netmask before_short_line))
    = route (snd (convert_address inet_pton_text Netmask before_short_line)) /\
  netmask (route (snd (read_stage inet_pton_text Netmask before_short_line)))
    = [32; 1; 13; 184; 0; 0; 0; 0; 0; 0; 0; 0; 0; 0; 0; 0].
Proof.
  destruct (short_line_converts_stale_text inet_pton_text Netmask
              before_short_line (text "  ") (text router_line) AtEof)
    as (Hout & Hroute & _); try reflexivity; try discriminate.
  - unfold ADDR_OFFSET. simpl. lia.
  - split; [rewrite Hout; reflexivity|]. split; [exact Hroute|].
    rewrite Hroute. reflexivity.
Defined.

Lemma record_written_before_failure_witness :
  fst (rest_of_entry inet_pton_text target_line_read) = Return 0 /\
  prefix (route (snd (rest_of_entry inet_pton_text target_line_read)))
    = [32; 1; 13; 184; 0; 0; 0; 0; 0; 0; 0; 0; 0; 0; 0; 0] /\
  prefix (route (snd (rest_of_entry inet_pton_text target_line_read)))
    <> prefix (route target_line_read).
Proof.
  destruct (record_written_before_failure inet_pton_text target_line_read
              (text "1000. target:  ") (text "2001:db8::")
              (drop 26 first_line_read) eq_refl eq_refl eq_refl eq_refl)
    as (Hprefix & Hshort).
  destruct (Hshort eq_refl) as (Hret & _ & _).
  split; [exact Hret|]. rewrite Hprefix. split; [reflexivity|].
  vm_compute. discriminate.
Defined.

(** ** The scan inside a stage *)

Section ScanInsideStage.

Variable inet_pton : list Z -> in6_addr -> Z * in6_addr.

(** C9.  The conversion block of a stage, run on the 58-byte line buffer,
    has defined behaviour whatever the buffer holds: it stores a NUL into
    the last byte, and the scan of [set_nul_terminator] that starts at
    ADDR_OFFSET then stops at an index [p] no greater than
    PROCFS_LINELEN - 1.  Every character from ADDR_OFFSET up to [p] is a
    hexadecimal digit or a colon; the character the scan stops at is one
    the buffer held that is neither, or else the NUL forced into the last
    byte.  The terminator is written at [p], inside the buffer, and no
    byte but [p] and the last one changes.  A stage that reads into a
    58-byte buffer hands on a 58-byte buffer, so every scan of a call
    runs on such a buffer and no stage leaves it. *)
Theorem scan_stays_inside_line (fld : field) (s : machine) :
  length (line s) = PROCFS_LINELEN ->
  let out := convert_address inet_pton fld s in
  fst out <> Undefined /\
  length (line (snd out)) = PROCFS_LINELEN /\
  line (snd out) !! (PROCFS_LINELEN - 1)%nat = Some NUL /\
  (exists p : nat,
     (ADDR_OFFSET <= p <= PROCFS_LINELEN - 1)%nat /\
     line (snd out) !! p = Some NUL /\
     (forall j, (ADDR_OFFSET <= j < p)%nat ->
        exists c, line s !! j = Some c /\ address_character c) /\
     ((p < PROCFS_LINELEN - 1)%nat ->
        exists c, line s !! p = Some c /\ ~ address_character c) /\
     (forall j, j <> p -> j <> (PROCFS_LINELEN - 1)%nat ->
        line (snd out) !! j = line s !! j)) /\
  (forall stage : field,
     fst (read_stage inet_pton stage s) <> Undefined /\
     length (line (snd (read_stage inet_pton stage s))) = PROCFS_LINELEN).
Proof.
  intros Hlen. cbv zeta.
  destruct (convert_address_run inet_pton fld s Hlen) as (n & Hn & Hle & Hrun).
  cbv zeta in Hn, Hle, Hrun.
  destruct (scan_address_stop _ _ Hn) as (_ & (c & Hc & Hstop) & Hbefore).
  rewrite lookup_drop in Hc.
  assert (H57 : (PROCFS_LINELEN - 1 < length (line s))%nat)
    by (rewrite Hlen; unfold PROCFS_LINELEN; lia).
  rewrite Hrun. cbn [fst snd line].
  split.
  { destruct (_ <? 0); [discriminate|]. destruct (_ =? 0); discriminate. }
  split; [rewrite !length_insert; exact Hlen|].
  split.
  { destruct (decide (ADDR_OFFSET + n = PROCFS_LINELEN - 1)%nat) as [->|Hne].
    - apply list_lookup_insert_eq. rewrite length_insert. exact H57.
    - rewrite list_lookup_insert_ne by exact Hne.
      apply list_lookup_insert_eq. exact H57. }
  split.
  - exists (ADDR_OFFSET + n)%nat. split; [lia|]. split.
    { apply list_lookup_insert_eq. rewrite length_insert. lia. }
    split.
    { intros j Hj. destruct (Hbefore (j - ADDR_OFFSET)%nat) as (d & Hd & Hok);
        [lia|].
      rewrite lookup_drop in Hd.
      replace (ADDR_OFFSET + (j - ADDR_OFFSET))%nat with j in Hd by lia.
      rewrite list_lookup_insert_ne in Hd by lia.
      exists d. split; [exact Hd|]. now apply is_addr_char_spec. }
    split.
    { intros Hp. rewrite list_lookup_insert_ne in Hc by lia.
      exists c. split; [exact Hc|]. now apply is_addr_char_false. }
    intros j Hj1 Hj2.
    rewrite list_lookup_insert_ne by congruence.
    apply list_lookup_insert_ne. congruence.
  - intros stage. destruct stage.
    + cbn [read_stage]. rewrite read_target_line_run.
      destruct (fgets (line s) PROCFS_LINELEN (stream s)) as [[buf|] f'] eqn:E;
        cbn [fst snd after_fgets line]; (split; [discriminate|]);
        [|exact Hlen].
      eapply fgets_length; [exact E|exact Hlen|unfold PROCFS_LINELEN; lia].
    + destruct (read_stage_ok inet_pton Netmask s ltac:(discriminate) Hlen)
        as [Hl [(v & Hv & _) | (src & b & _ & Hr)]];
        (split; [|exact Hl]); [rewrite Hv|rewrite Hr]; discriminate.
    + destruct (read_stage_ok inet_pton Router s ltac:(discriminate) Hlen)
        as [Hl [(v & Hv & _) | (src & b & _ & Hr)]];
        (split; [|exact Hl]); [rewrite Hv|rewrite Hr]; discriminate.
Qed.

End ScanInsideStage.

Lemma scan_stays_inside_line_witness :
  length stale_stack = PROCFS_LINELEN /\
  fst (convert_address inet_pton_text Prefix
         (mk_machine empty_table blank_route stale_stack [])) <> Undefined /\
  line (snd (convert_address inet_pton_text Prefix
               (mk_machine empty_table blank_route stale_stack [])))
    !! (PROCFS_LINELEN - 1)%nat = Some NUL.
Proof.
  split; [reflexivity|].
  destruct (scan_stays_inside_line inet_pton_text Prefix
              (mk_machine empty_table blank_route stale_stack []) eq_refl)
    as (Hdef & _ & Hlast & _).
  split; [exact Hdef|exact Hlast].
Defined.

(** ** The reads of a call *)


Section Reads.

Variable inet_pton : list Z -> in6_addr -> Z * in6_addr.



End Reads.


